(** * Two-Step Order Cleaner: the removal-list loader and the order transformer

  A shallow embedding of [two_step_order_cleaner.py].  The spreadsheet reader and
  writer are outside the program: a workbook is represented by what the reader
  hands to the code (a sheet name and a grid of cells), and a removal template by
  its parsed sheet (named columns of text cells). *)

From Stdlib Require Import String Ascii NArith.
From stdpp Require Import gmap list fin_maps fin_sets.

(** ** Python text *)

(** A Python [str] is a sequence of Unicode code points. *)
Definition pystr : Type := list N.

(** ASCII literals. *)
Definition py (s : string) : pystr :=
(λ a, N_of_ascii a) <$> list_ascii_of_string s.

Module Py.

(** [str.isspace] for one code point: the characters [str.strip()] removes. *)
Definition isspace (c : N) : bool :=
  ((0x09 <=? c) && (c <=? 0x0D) || (0x1C <=? c) && (c <=? 0x20)
   || (c =? 0x85) || (c =? 0xA0) || (c =? 0x1680)
   || (0x2000 <=? c) && (c <=? 0x200A)
   || (c =? 0x2028) || (c =? 0x2029) || (c =? 0x202F) || (c =? 0x205F)
   || (c =? 0x3000))%N.

Fixpoint lstrip (s : pystr) : pystr :=
  match s with
  | [] => []
  | c :: s' => if isspace c then lstrip s' else s
  end.

Definition rstrip (s : pystr) : pystr := reverse (lstrip (reverse s)).

(** [s.strip()] *)
Definition strip (s : pystr) : pystr := rstrip (lstrip s).

(** [s.startswith(prefix)] *)
Fixpoint startswith (s prefix : pystr) : bool :=
  match prefix with
  | [] => true
  | p :: prefix' =>
      match s with
      | [] => false
      | c :: s' => (c =? p)%N && startswith s' prefix'
      end
  end.

End Py.

(** ** The two regular expressions of the source

  Both patterns are written in the source as raw strings with a doubled
  backslash: [r"\\.0$"] and [r"#(\\d+)#"].  In a raw string the two backslashes
  stay two characters, and the regular-expression engine reads them as one
  literal backslash.  So [\\.0$] is: a backslash, any character but a newline,
  the character 0, the end of the text; and [#(\\d+)#] is: a hash, then the
  group "a backslash and one or more letters d", then a hash. *)

Module Re.

Definition backslash : N := 0x5C%N.
Definition newline : N := 0x0A%N.
Definition hash : N := 0x23%N.
Definition zero : N := 0x30%N.
Definition letter_d : N := 0x64%N.

(** [$] without MULTILINE: at the end, or before a newline that ends the text. *)
Definition at_end (s : pystr) : bool :=
  match s with
  | [] => true
  | [c] => (c =? newline)%N
  | _ => false
  end.

(** [\\.0$] matched at the start of [s]: what is left after the match. *)
Definition match_dot0 (s : pystr) : option pystr :=
  match s with
  | b :: c :: z :: rest =>
      if (b =? backslash)%N && negb (c =? newline)%N && (z =? zero)%N && at_end rest
      then Some rest else None
  | _ => None
  end.

(** [Series.str.replace(r"\\.0$", "", regex=True)] on one text: the match is
    removed.  A match ends where [$] holds, so what is left after it (nothing, or
    one newline) holds no second match. *)
Fixpoint replace_dot0 (s : pystr) : pystr :=
  match match_dot0 s with
  | Some rest => rest
  | None =>
      match s with
      | [] => []
      | c :: s' => c :: replace_dot0 s'
      end
  end.

(** The longest run of letters d at the start of [s], and what follows it. *)
Fixpoint span_d (s : pystr) : pystr * pystr :=
  match s with
  | [] => ([], [])
  | c :: s' =>
      if (c =? letter_d)%N
      then let '(ds, r) := span_d s' in (c :: ds, r)
      else ([], s)
  end.

(** [#(\\d+)#] matched at the start of [s]: group 1.  The run of d is greedy and
    a shorter run is followed by a d, never by the closing hash. *)
Definition match_code (s : pystr) : option pystr :=
  match s with
  | h :: b :: s' =>
      if (h =? hash)%N && (b =? backslash)%N then
        match span_d s' with
        | (d :: ds, h' :: _) => if (h' =? hash)%N then Some (b :: d :: ds) else None
        | _ => None
        end
      else None
  | _ => None
  end.

(** [m = re.search(r"#(\\d+)#", s)]: [m.group(1)] of the leftmost match. *)
Fixpoint search_code (s : pystr) : option pystr :=
  match match_code s with
  | Some g => Some g
  | None =>
      match s with
      | [] => None
      | _ :: s' => search_code s'
      end
  end.

End Re.

(** ** What the specification describes for the same two steps *)

Module SpecText.

Definition isdigit (c : N) : bool := ((0x30 <=? c) && (c <=? 0x39))%N.

(** "strip a trailing [.0]". *)
Definition strip_trailing_dot0 (s : pystr) : pystr :=
  match reverse s with
  | z :: d :: r => if (z =? 0x30)%N && (d =? 0x2E)%N then reverse r else s
  | _ => s
  end.

Fixpoint span_digits (s : pystr) : pystr * pystr :=
  match s with
  | [] => ([], [])
  | c :: s' =>
      if isdigit c
      then let '(ds, r) := span_digits s' in (c :: ds, r)
      else ([], s)
  end.

Definition token_here (s : pystr) : option pystr :=
  match s with
  | h :: s' =>
      if (h =? 0x23)%N then
        match span_digits s' with
        | (d :: ds, h' :: _) => if (h' =? 0x23)%N then Some (d :: ds) else None
        | _ => None
        end
      else None
  | [] => None
  end.

(** "a substring of the form [#<one-or-more-digits>#]": the digits of the first. *)
Fixpoint first_token (s : pystr) : option pystr :=
  match token_here s with
  | Some g => Some g
  | None =>
      match s with
      | [] => None
      | _ :: s' => first_token s'
      end
  end.

End SpecText.

(** ** Errors *)

(** The exceptions the two components raise.  [ValueError] is the loader's
  complaint about the template (the specification's ConfigError), [RuntimeError]
  the transformer's about the order sheet (its StructureError); [IndexError] is
  what [DataFrame.iloc] raises for a row that is not there. *)
Inductive error : Type :=
| FileNotFoundError
| ValueError
| IndexError
| RuntimeError.

#[global] Instance error_eq_dec : EqDecision error.
Proof. solve_decision. Defined.

(** ** Removal-list loader *)

Module Loader.

(** A template column read with [dtype=str]: each cell is a text or missing. *)
Definition column : Type := list (option pystr).

(** [.fillna("")] on such a column; every cell is then a [str], which
    [.astype(str)] leaves as it is. *)
Definition fillna (value : pystr) (c : column) : list pystr :=
  default value <$> c.

Definition shop_code : pystr := py "shop_code".
Definition shop_nickname_optional : pystr := py "shop_nickname_optional".

(** [set(col[col != ""].tolist())] *)
Definition non_empty_set (col : list pystr) : gset pystr :=
  list_to_set (filter (λ s, s ≠ []) col).

(** The text both loaders share, from the test for the [shop_code] column to
    the [return]; [tpl] is the sheet after [.fillna("")]. *)
Definition normalise (tpl : gmap pystr (list pystr))
    : error + (gset pystr * gset pystr) :=
  match tpl !! shop_code with
  | None => inl ValueError
  | Some codes =>
      let tpl :=
        match tpl !! shop_nickname_optional with
        | None => <[shop_nickname_optional := replicate (length codes) []]> tpl
        | Some _ => tpl
        end in
      let tpl :=
        <[shop_code := (λ s, Py.strip (Re.replace_dot0 s)) <$> codes]> tpl in
      let tpl :=
        <[shop_nickname_optional :=
            Py.strip <$> default [] (tpl !! shop_nickname_optional)]> tpl in
      let shop_codes := non_empty_set (default [] (tpl !! shop_code)) in
      let nicknames := non_empty_set (default [] (tpl !! shop_nickname_optional)) in
      inr (shop_codes, nicknames)
  end.

(** [load_template_from_bytes]: the sheet [clients_to_clear] of the upload. *)
Definition load_template_from_bytes (sheet : gmap pystr column)
    : error + (gset pystr * gset pystr) :=
  normalise (fillna [] <$> sheet).

(** [load_template_from_file]: [None] is a path at which no file exists. *)
Definition load_template_from_file (template_path : option (gmap pystr column))
    : error + (gset pystr * gset pystr) :=
  match template_path with
  | None => inl FileNotFoundError
  | Some sheet => normalise (fillna [] <$> sheet)
  end.

End Loader.

(** ** Order transformer *)

(** A cell of the order sheet, read with [dtype=object]: missing (the reader's
    NaN), a text, or any other value (a number, a date, a boolean), kept with
    the text Python's [str] gives it. *)
Inductive cell : Type :=
  | NaN
  | Str (s : pystr)
  | Other (repr : pystr).

#[global] Instance cell_eq_dec : EqDecision cell.
Proof. solve_decision. Defined.

(** Python's [str(v)]. *)
Definition str (v : cell) : pystr :=
  match v with
  | NaN => py "nan"
  | Str s => s
  | Other repr => repr
  end.

(** [v.notna()] *)
Definition notna (v : cell) : bool :=
  match v with
  | NaN => false
  | _ => true
  end.

(** A grid is the list of its rows; a frame read from a sheet is rectangular. *)
Definition rectangular (ncols : nat) (df : list (list cell)) : Prop :=
  Forall (λ row, length row = ncols) df.

(** The first sheet of a workbook, as the reader gives it and the writer takes it. *)
Record Workbook : Type := {
  sheet_name : pystr;
  sheet : list (list cell)
}.

Record Summary : Type := {
  summary_sheet_name : pystr;
  columns_to_clear_count : nat;
  west_columns_dropped : nat;
  rows_eligible_by_supplier_rule : nat;
  cleared_cells_estimate : nat;
  summary_protected_supplier : pystr
}.

(** The label of the supplier column, and the defaults of the two text parameters. *)
Definition supplier_label : pystr :=
  [0x10EB; 0x10D8; 0x10E0; 0x10D8; 0x10D7; 0x10D0; 0x10D3; 0x10D8; 0x20; 0x10DB;
   0x10DD; 0x10DB; 0x10EC; 0x10DD; 0x10D3; 0x10D4; 0x10D1; 0x10D4; 0x10DA; 0x10D8]%N.

Definition default_protected_supplier : pystr :=
  [0x10D2; 0x10D0; 0x10D2; 0x10E0; 0x10D0; 0x20; 0x10DE; 0x10DA; 0x10E3; 0x10E1;
   0x10D8]%N.

Definition default_west_prefix : pystr :=
  [0x10D3; 0x10D0; 0x10E1; 0x10D0; 0x10D5; 0x10DA; 0x10D4; 0x10D7; 0x10D8]%N.

Definition data_start : nat := 3.

(** [enumerate(l, start)] *)
Fixpoint enumerate_from {A : Type} (start : nat) (l : list A) : list (nat * A) :=
  match l with
  | [] => []
  | x :: l' => (start, x) :: enumerate_from (S start) l'
  end.

Definition enumerate {A : Type} (l : list A) : list (nat * A) := enumerate_from 0 l.

(** [.fillna(value)] on a row or column of cells. *)
Definition fillna_cell (value : pystr) (v : cell) : cell :=
  match v with
  | NaN => Str value
  | _ => v
  end.

Definition fillna (value : pystr) (s : list cell) : list cell :=
  fillna_cell value <$> s.

(** The loop of [find_col]: the first index whose stripped text is [name_exact]. *)
Fixpoint find_col_loop (l : list (nat * cell)) (name_exact : pystr) : option nat :=
  match l with
  | [] => None
  | (i, v) :: l' =>
      if decide (Py.strip (str v) = name_exact) then Some i
      else find_col_loop l' name_exact
  end.

Definition find_col (hdr_series : list cell) (name_exact : pystr) : option nat :=
  find_col_loop (enumerate hdr_series) name_exact.

(** [shop_cols_map]: the loop over [enumerate(hdr_address)]. *)
Definition shop_cols_map_of (hdr_address : list cell) : gmap nat pystr :=
  foldl (λ (m : gmap nat pystr) '(i, meta),
           match Re.search_code (str meta) with
           | Some code => <[i := code]> m
           | None => m
           end)
        ∅ (enumerate hdr_address).

(** [columns_to_clear]: the loop over the items of [shop_cols_map], then the
    loop over [enumerate(hdr_nickname)]. *)
Definition match_by_shop_code (shop_cols_map : gmap nat pystr)
    (shop_codes_to_clear : gset pystr) (columns_to_clear : gset nat) : gset nat :=
  foldl (λ (acc : gset nat) '(col_idx, code),
           if decide (code ∈ shop_codes_to_clear) then acc ∪ {[col_idx]} else acc)
        columns_to_clear (map_to_list shop_cols_map).

Definition match_by_nickname (hdr_nickname : list cell)
    (nicknames_to_clear : gset pystr) (columns_to_clear : gset nat) : gset nat :=
  foldl (λ (acc : gset nat) '(col_idx, nickname),
           if decide (Py.strip (str nickname) ∈ nicknames_to_clear)
           then acc ∪ {[col_idx]} else acc)
        columns_to_clear (enumerate hdr_nickname).

Definition columns_to_clear_of (hdr_nickname hdr_address : list cell)
    (shop_codes_to_clear nicknames_to_clear : gset pystr) : gset nat :=
  match_by_nickname hdr_nickname nicknames_to_clear
    (match_by_shop_code (shop_cols_map_of hdr_address) shop_codes_to_clear ∅).

(** [west_cols]: the list comprehension over [enumerate(hdr_nickname)]. *)
Definition west_cols_of (hdr_nickname : list cell) (west_prefix : pystr) : list nat :=
  (filter (λ iv : nat * cell, Py.startswith (Py.strip (str iv.2)) west_prefix = true)
          (enumerate hdr_nickname)).*1.

(** [out.iloc[data_start:, col]]: the column, with the row labels it keeps.  In a
    rectangular frame the column index found in row 0 is in range in every row. *)
Definition iloc_from (out : list (list cell)) (start col : nat) : list (nat * cell) :=
  enumerate_from start ((λ row, default NaN (row !! col)) <$> drop start out).

(** [out.loc[rows, c]]: the cells of column [c] in the rows labelled [rows]. *)
Definition loc (out : list (list cell)) (rows : list nat) (c : nat) : list cell :=
  (λ r, default NaN (out !! r ≫= λ row, row !! c)) <$> rows.

(** [out.loc[rows, c] = value] *)
Definition loc_set (out : list (list cell)) (rows : list nat) (c : nat) (value : cell)
    : list (list cell) :=
  imap (λ r row, if decide (r ∈ rows) then <[c := value]> row else row) out.

(** The body of [for c in columns_to_clear], on the frame and the counter. *)
Definition clear_step (rows_to_edit : list nat) (st : list (list cell) * nat) (c : nat)
    : list (list cell) * nat :=
  let '(out, cleared_cells) := st in
  let col_slice := loc out rows_to_edit c in
  (loc_set out rows_to_edit c (Str []),
   cleared_cells + length (filter (λ v, notna v = true) col_slice)).

(** One row without the cells whose column label, counted from [j], is in [labels]. *)
Fixpoint drop_labels (labels : list nat) (j : nat) (row : list cell) : list cell :=
  match row with
  | [] => []
  | v :: row' =>
      if decide (j ∈ labels) then drop_labels labels (S j) row'
      else v :: drop_labels labels (S j) row'
  end.

(** [out.drop(columns=labels)] *)
Definition drop_columns (labels : list nat) (out : list (list cell)) : list (list cell) :=
  drop_labels labels 0 <$> out.

Section Transformer.

(** What [.astype(str)] makes of a missing value.  Where the conversion applies
    [str] to every element (an object row or column in pandas 1 and 2) it is the
    text "nan"; a conversion to a nullable string type would keep it missing. *)
Variable astype_na : cell.

(** [.astype(str)] on a row or column of cells. *)
Definition astype_str_cell (v : cell) : cell :=
  match v with
  | NaN => astype_na
  | _ => Str (str v)
  end.

Definition astype_str (s : list cell) : list cell :=
  astype_str_cell <$> s.

(** [.astype(str).fillna("")] *)
Definition as_text (s : list cell) : list cell := fillna [] (astype_str s).

(** The text the code compares for one cell of such a row or column. *)
Definition text_of (v : cell) : pystr :=
  str (fillna_cell [] (astype_str_cell v)).

(** [suppliers] and [rows_to_edit]: the labels of the rows from [data_start] on
    whose supplier text is not the protected one. *)
Definition suppliers_of (out : list (list cell)) (col_supplier : nat) : list (nat * cell) :=
  let col := iloc_from out data_start col_supplier in
  zip col.*1 (as_text col.*2).

Definition rows_to_edit_of (out : list (list cell)) (col_supplier : nat)
    (protected_supplier : pystr) : list nat :=
  (filter (λ rv : nat * cell, Py.strip (str rv.2) ≠ protected_supplier)
          (suppliers_of out col_supplier)).*1.

Definition transform_order (order : Workbook)
    (shop_codes_to_clear nicknames_to_clear : gset pystr)
    (protected_supplier west_prefix : pystr) : error + (Workbook * Summary) :=
  let raw := sheet order in
  match raw !! 0 with
  | None => inl IndexError
  | Some row0 =>
  match raw !! 1 with
  | None => inl IndexError
  | Some row1 =>
  let hdr_nickname := as_text row0 in
  let hdr_address := as_text row1 in
  match find_col hdr_nickname supplier_label with
  | None => inl RuntimeError
  | Some col_supplier =>
      let columns_to_clear :=
        columns_to_clear_of hdr_nickname hdr_address
                            shop_codes_to_clear nicknames_to_clear in
      let west_cols := west_cols_of hdr_nickname west_prefix in
      let out := raw in
      let rows_to_edit := rows_to_edit_of out col_supplier protected_supplier in
      let '(out, cleared_cells) :=
        foldl (clear_step rows_to_edit) (out, 0) (elements columns_to_clear) in
      let out :=
        match west_cols with
        | [] => out
        | _ :: _ => drop_columns west_cols out
        end in
      inr ({| sheet_name := sheet_name order; sheet := out |},
           {| summary_sheet_name := sheet_name order;
              columns_to_clear_count := size columns_to_clear;
              west_columns_dropped := length west_cols;
              rows_eligible_by_supplier_rule := length rows_to_edit;
              cleared_cells_estimate := cleared_cells;
              summary_protected_supplier := protected_supplier |})
  end
  end
  end.

End Transformer.

(** The conversion of pandas 1 and 2: [str] element by element. *)
Definition astype_na_text : cell := Str (py "nan").

(** A conversion that keeps missing values missing. *)
Definition astype_na_kept : cell := NaN.

(** ** The frame after the loop, and the rows and columns behind an output cell *)

(** A row whose cells in the columns [cs] hold the empty text. *)
Definition clear_row (cs : list nat) (row : list cell) : list cell :=
  imap (λ j v, if decide (j ∈ cs) then Str [] else v) row.

(** The frame whose rows labelled [rows] are cleared in the columns [cs]. *)
Definition cleared (rows cs : list nat) (out : list (list cell)) : list (list cell) :=
  imap (λ r row, if decide (r ∈ rows) then clear_row cs row else row) out.

(** The cells of [l] that stand under the headers [ks] satisfying [p]. *)
Fixpoint keep_by {A B : Type} (p : A → bool) (ks : list A) (l : list B) : list B :=
  match ks, l with
  | k :: ks', x :: l' => if p k then x :: keep_by p ks' l' else keep_by p ks' l'
  | _, _ => []
  end.

(** The input column behind output column [j'] when the columns under the
    headers [ks] satisfying [p] are the ones kept. *)
Fixpoint kept_index {A : Type} (p : A → bool) (ks : list A) (j' : nat) : option nat :=
  match ks with
  | [] => None
  | k :: ks' =>
      if p k then
        match j' with
        | 0 => Some 0
        | S j'' => S <$> kept_index p ks' j''
        end
      else S <$> kept_index p ks' j'
  end.

(** Whether a header text of row 0 marks a West column. *)
Definition is_west (west_prefix : pystr) (v : cell) : bool :=
  Py.startswith (Py.strip (str v)) west_prefix.

(** ** Sample sheets *)

(** A sheet whose second column has no label and no address. *)
Definition order_missing_label : Workbook :=
  {| sheet_name := py "TDSheet";
     sheet := [ [Str supplier_label; NaN];
                [Str (py "address"); NaN];
                [Str (py "label"); Str (py "label")];
                [Str (py "other"); Other (py "5")];
                [NaN; Other (py "7")] ] |}.

(** A sheet with a supplier column, a shop column with its address, and a West
    column. *)
Definition order_three_columns : Workbook :=
  {| sheet_name := py "TDSheet";
     sheet := [ [Str supplier_label; Str (py "shop"); Str default_west_prefix];
                [NaN; Str (py "#037# and also #099#"); NaN];
                [NaN; Str (py "qty"); Str (py "qty")];
                [Str (py "other"); Other (py "5"); Other (py "9")];
                [Str default_protected_supplier; Other (py "7"); Other (py "2")] ] |}.

(** The first word of the supplier label, as a West prefix. *)
Definition supplier_label_first_word : pystr := take 8 supplier_label.

(** What the transformer returns for [order_three_columns], the nickname "shop"
    and the default parameters. *)
Definition order_three_columns_out : Workbook :=
  {| sheet_name := py "TDSheet";
     sheet := [ [Str supplier_label; Str (py "shop")];
                [NaN; Str (py "#037# and also #099#")];
                [NaN; Str (py "qty")];
                [Str (py "other"); Str []];
                [Str default_protected_supplier; Other (py "7")] ] |}.

Definition order_three_columns_summary : Summary :=
  {| summary_sheet_name := py "TDSheet";
     columns_to_clear_count := 1;
     west_columns_dropped := 1;
     rows_eligible_by_supplier_rule := 1;
     cleared_cells_estimate := 1;
     summary_protected_supplier := default_protected_supplier |}.

(** What it returns for the same sheet when the West prefix is the first word of
    the supplier label: the supplier column is gone. *)
Definition order_without_supplier : Workbook :=
  {| sheet_name := py "TDSheet";
     sheet := [ [Str (py "shop"); Str default_west_prefix];
                [Str (py "#037# and also #099#"); NaN];
                [Str (py "qty"); Str (py "qty")];
                [Str []; Other (py "9")];
                [Other (py "7"); Other (py "2")] ] |}.

(** ** The page *)

(** The widgets of the page, as one run of the script reads them.  A file
    uploader holds no file until one is uploaded; [config_template] is the sheet
    of the file at the fixed path, if there is one.  The uploader of a custom
    template is read only when the default template is switched off. *)
Record Page : Type := {
  order_file : option Workbook;
  config_template : option (gmap pystr Loader.column);
  use_config_template : bool;
  uploaded_template_file : option (gmap pystr Loader.column);
  protected_supplier_input : pystr;
  west_prefix_input : pystr;
  run_btn : bool
}.

(** What a run of [main] puts under the button. *)
Inductive Shown : Type :=
  | Nothing
  | PleaseUploadOrder
  | PleaseUploadTemplate
  | NothingToClear
  | ErrorDuringTransformation (e : error)
  | Download (cleaned : Workbook) (summary : Summary).

(** [main], from [if run_btn:] to the download button.  The preview that follows
    reads the written workbook back and shows nothing else when that fails; it
    is left out. *)
Definition main (astype_na : cell) (page : Page) : Shown :=
  if run_btn page then
    match order_file page with
    | None => PleaseUploadOrder
    | Some order =>
        let template :=
          if use_config_template page
          then Some (Loader.load_template_from_file (config_template page))
          else match uploaded_template_file page with
               | None => None
               | Some upload => Some (Loader.load_template_from_bytes upload)
               end in
        match template with
        | None => PleaseUploadTemplate
        | Some (inl e) => ErrorDuringTransformation e
        | Some (inr (shop_codes, nicknames)) =>
            if decide (shop_codes = ∅ ∧ nicknames = ∅) then NothingToClear
            else
              match transform_order astype_na order shop_codes nicknames
                      (protected_supplier_input page) (west_prefix_input page) with
              | inl e => ErrorDuringTransformation e
              | inr (cleaned_bytes, summary) => Download cleaned_bytes summary
              end
        end
    end
  else Nothing.

(** A page with the sample sheet, an uploaded template naming the shop "shop",
    and the default parameters. *)
Definition sample_page : Page :=
  {| order_file := Some order_three_columns;
     config_template := None;
     use_config_template := false;
     uploaded_template_file :=
       Some {[ Loader.shop_code := [Some (py "037.0")];
               Loader.shop_nickname_optional := [Some (py " shop ")] ]};
     protected_supplier_input := default_protected_supplier;
     west_prefix_input := default_west_prefix;
     run_btn := true |}.

(** * Properties *)

(** ** Rows with their indices *)

Lemma enumerate_from_lookup {A : Type} (l : list A) (start k : nat) :
  enumerate_from start l !! k = (λ x, (start + k, x)) <$> l !! k.
Proof.
  revert start k. induction l as [|x l IH]; intros start k; [done|].
  destruct k as [|k]; simpl.
  - by rewrite Nat.add_0_r.
  - rewrite IH. by replace (S start + k) with (start + S k) by lia.
Qed.

Lemma elem_of_enumerate_from {A : Type} (l : list A) (start i : nat) (x : A) :
  (i, x) ∈ enumerate_from start l ↔ start ≤ i ∧ l !! (i - start) = Some x.
Proof.
  rewrite list_elem_of_lookup. split.
  - intros [k Hk]. rewrite enumerate_from_lookup in Hk.
    destruct (l !! k) as [y|] eqn:Hy; simplify_eq/=.
    split; [lia|]. by replace (start + k - start) with k by lia.
  - intros [Hle Hx]. exists (i - start). rewrite enumerate_from_lookup, Hx. simpl.
    f_equal. f_equal. lia.
Qed.

Lemma elem_of_enumerate {A : Type} (l : list A) (i : nat) (x : A) :
  (i, x) ∈ enumerate l ↔ l !! i = Some x.
Proof.
  unfold enumerate. rewrite elem_of_enumerate_from, Nat.sub_0_r.
  split; [tauto|]. intros; split; [lia|done].
Qed.

Lemma enumerate_from_fst {A : Type} (l : list A) (start : nat) :
  (enumerate_from start l).*1 = seq start (length l).
Proof. revert start. induction l as [|x l IH]; intros start; simpl; [done|]. by rewrite IH. Qed.

Lemma enumerate_from_snd {A : Type} (l : list A) (start : nat) :
  (enumerate_from start l).*2 = l.
Proof. revert start. induction l as [|x l IH]; intros start; simpl; [done|]. by rewrite IH. Qed.

Lemma zip_enumerate_from {A B : Type} (f : A → B) (l : list A) (start : nat) :
  zip (enumerate_from start l).*1 (f <$> (enumerate_from start l).*2)
  = enumerate_from start (f <$> l).
Proof. revert start. induction l as [|x l IH]; intros start; simpl; [done|]. by rewrite IH. Qed.

(** ** The supplier column *)

Lemma find_col_loop_None (l : list cell) (start : nat) (name : pystr) :
  find_col_loop (enumerate_from start l) name = None
  ↔ ∀ j v, l !! j = Some v → Py.strip (str v) ≠ name.
Proof.
  revert start. induction l as [|x l IH]; intros start; simpl.
  - split; [intros _ j v Hj; by rewrite lookup_nil in Hj|done].
  - destruct (decide (Py.strip (str x) = name)) as [Hx|Hx].
    + split; [done|]. intros H. by destruct (H 0 x).
    + rewrite IH. split.
      * intros H [|j] v Hj; simplify_eq/=; eauto.
      * intros H j v Hj. by apply (H (S j)).
Qed.

Lemma find_col_loop_Some (l : list cell) (start i : nat) (name : pystr) :
  find_col_loop (enumerate_from start l) name = Some i
  ↔ start ≤ i
    ∧ (∃ v, l !! (i - start) = Some v ∧ Py.strip (str v) = name)
    ∧ ∀ j v, j < i - start → l !! j = Some v → Py.strip (str v) ≠ name.
Proof.
  revert start. induction l as [|x l IH]; intros start; simpl.
  - split; [done|]. intros (_ & (v & Hv & _) & _). by rewrite lookup_nil in Hv.
  - destruct (decide (Py.strip (str x) = name)) as [Hx|Hx].
    + split.
      * intros [= <-]. rewrite Nat.sub_diag. split; [lia|]. split; [by exists x|]. lia.
      * intros (Hle & _ & Hfirst). f_equal.
        destruct (decide (i = start)) as [|Hne]; [done|].
        destruct (Hfirst 0 x); [lia|done..].
    + rewrite IH. split.
      * intros (Hle & (v & Hv & Hn) & Hfirst).
        replace (i - start) with (S (i - S start)) by lia.
        split; [lia|]. split; [by exists v|].
        intros [|j] w Hj Hw; simplify_eq/=; [done|]. apply (Hfirst j w); [lia|done].
      * intros (Hle & (v & Hv & Hn) & Hfirst).
        destruct (decide (i = start)) as [->|Hne].
        { rewrite Nat.sub_diag in Hv. by simplify_eq/=. }
        replace (i - start) with (S (i - S start)) in * by lia.
        split; [lia|]. split; [by exists v|].
        intros j w Hj Hw. apply (Hfirst (S j) w); [lia|done].
Qed.

Lemma find_col_None (hdr : list cell) (name : pystr) :
  find_col hdr name = None ↔ ∀ j v, hdr !! j = Some v → Py.strip (str v) ≠ name.
Proof. apply find_col_loop_None. Qed.

Lemma find_col_Some (hdr : list cell) (name : pystr) (i : nat) :
  find_col hdr name = Some i
  ↔ (∃ v, hdr !! i = Some v ∧ Py.strip (str v) = name)
    ∧ ∀ j v, j < i → hdr !! j = Some v → Py.strip (str v) ≠ name.
Proof.
  unfold find_col, enumerate. rewrite find_col_loop_Some, Nat.sub_0_r.
  split; [tauto|]. intros; split; [lia|done].
Qed.

(** ** The column map and the clear-set *)

Lemma shop_cols_map_loop_lookup (l : list cell) (start : nat) (m : gmap nat pystr) (j : nat) :
  foldl (λ (m : gmap nat pystr) '(i, meta),
           match Re.search_code (str meta) with
           | Some code => <[i := code]> m
           | None => m
           end) m (enumerate_from start l) !! j
  = match (if decide (start ≤ j) then l !! (j - start) ≫= λ v, Re.search_code (str v)
           else None) with
    | Some code => Some code
    | None => m !! j
    end.
Proof.
  revert start m. induction l as [|x l IH]; intros start m; simpl.
  - case_decide; [|done]. by destruct (j - start).
  - rewrite IH. destruct (decide (S start ≤ j)) as [Hlt|Hge].
    + rewrite decide_True by lia.
      replace (j - start) with (S (j - S start)) by lia. simpl.
      destruct (l !! (j - S start) ≫= _) as [c|]; [done|].
      destruct (Re.search_code (str x)); [|done].
      rewrite lookup_insert_ne; [done|lia].
    + destruct (decide (start ≤ j)) as [Hle|Hlt].
      * assert (j = start) as -> by lia. rewrite Nat.sub_diag. simpl.
        destruct (Re.search_code (str x)); [|done]. by rewrite lookup_insert_eq.
      * destruct (Re.search_code (str x)); [|done].
        rewrite lookup_insert_ne; [done|lia].
Qed.

Lemma shop_cols_map_of_lookup (hdr_address : list cell) (j : nat) :
  shop_cols_map_of hdr_address !! j
  = hdr_address !! j ≫= λ v, Re.search_code (str v).
Proof.
  unfold shop_cols_map_of, enumerate. rewrite shop_cols_map_loop_lookup.
  rewrite decide_True by lia. rewrite Nat.sub_0_r, lookup_empty.
  by destruct (_ ≫= _).
Qed.

Lemma match_by_shop_code_elem (l : list (nat * pystr)) (codes : gset pystr)
    (acc : gset nat) (j : nat) :
  j ∈ foldl (λ (acc : gset nat) '(col_idx, code),
               if decide (code ∈ codes) then acc ∪ {[col_idx]} else acc) acc l
  ↔ j ∈ acc ∨ ∃ code, (j, code) ∈ l ∧ code ∈ codes.
Proof.
  revert acc. induction l as [|[i c] l IH]; intros acc; simpl.
  - split; [auto|]. intros [?|(c & Hc & _)]; [done|]. by apply elem_of_nil in Hc.
  - rewrite IH. case_decide as Hc.
    + rewrite elem_of_union, elem_of_singleton. split.
      * intros [[?| ->]|(c' & Hin & Hc')]; [by left| |].
        -- right. exists c. split; [left|done].
        -- right. exists c'. split; [by right|done].
      * intros [?|(c' & Hin & Hc')]; [by left; left|].
        apply elem_of_cons in Hin as [[= -> ->]|Hin]; [by left; right|].
        right. by exists c'.
    + split.
      * intros [?|(c' & Hin & Hc')]; [by left|]. right. exists c'. split; [by right|done].
      * intros [?|(c' & Hin & Hc')]; [by left|].
        apply elem_of_cons in Hin as [[= -> ->]|Hin]; [done|]. right. by exists c'.
Qed.

Lemma match_by_nickname_elem (l : list (nat * cell)) (nicks : gset pystr)
    (acc : gset nat) (j : nat) :
  j ∈ foldl (λ (acc : gset nat) '(col_idx, nickname),
               if decide (Py.strip (str nickname) ∈ nicks)
               then acc ∪ {[col_idx]} else acc) acc l
  ↔ j ∈ acc ∨ ∃ v, (j, v) ∈ l ∧ Py.strip (str v) ∈ nicks.
Proof.
  revert acc. induction l as [|[i c] l IH]; intros acc; simpl.
  - split; [auto|]. intros [?|(c & Hc & _)]; [done|]. by apply elem_of_nil in Hc.
  - rewrite IH. case_decide as Hc.
    + rewrite elem_of_union, elem_of_singleton. split.
      * intros [[?| ->]|(c' & Hin & Hc')]; [by left| |].
        -- right. exists c. split; [left|done].
        -- right. exists c'. split; [by right|done].
      * intros [?|(c' & Hin & Hc')]; [by left; left|].
        apply elem_of_cons in Hin as [[= -> ->]|Hin]; [by left; right|].
        right. by exists c'.
    + split.
      * intros [?|(c' & Hin & Hc')]; [by left|]. right. exists c'. split; [by right|done].
      * intros [?|(c' & Hin & Hc')]; [by left|].
        apply elem_of_cons in Hin as [[= -> ->]|Hin]; [done|]. right. by exists c'.
Qed.

Lemma elem_of_columns_to_clear_of (hdr_nickname hdr_address : list cell)
    (codes nicks : gset pystr) (j : nat) :
  j ∈ columns_to_clear_of hdr_nickname hdr_address codes nicks
  ↔ (∃ code, shop_cols_map_of hdr_address !! j = Some code ∧ code ∈ codes)
    ∨ (∃ v, hdr_nickname !! j = Some v ∧ Py.strip (str v) ∈ nicks).
Proof.
  unfold columns_to_clear_of, match_by_nickname, match_by_shop_code.
  rewrite match_by_nickname_elem, match_by_shop_code_elem.
  setoid_rewrite elem_of_map_to_list. setoid_rewrite elem_of_enumerate.
  split.
  - intros [[Hempty|Hc]|Hn]; [by apply not_elem_of_empty in Hempty|by left|by right].
  - intros [Hc|Hn]; [left; by right|by right].
Qed.

(** ** West columns *)

Lemma elem_of_west_cols_of (hdr_nickname : list cell) (west_prefix : pystr) (j : nat) :
  j ∈ west_cols_of hdr_nickname west_prefix
  ↔ ∃ v, hdr_nickname !! j = Some v
         ∧ Py.startswith (Py.strip (str v)) west_prefix = true.
Proof.
  unfold west_cols_of. rewrite list_elem_of_fmap. split.
  - intros ([i v] & -> & Hin). apply list_elem_of_filter in Hin as [Hw Hin].
    apply elem_of_enumerate in Hin. by exists v.
  - intros (v & Hv & Hw). exists (j, v). split; [done|].
    apply list_elem_of_filter. split; [done|]. by apply elem_of_enumerate.
Qed.

(** ** The clearing loop *)

Lemma clear_row_nil (row : list cell) : clear_row [] row = row.
Proof.
  apply list_eq; intros j. unfold clear_row. rewrite list_lookup_imap.
  destruct (row !! j) as [v|]; [|done]. cbn [fmap option_fmap option_map].
  destruct (decide (j ∈ [])) as [Hin|Hin]; [|done]. by apply not_elem_of_nil in Hin.
Qed.

Lemma length_clear_row (cs : list nat) (row : list cell) :
  length (clear_row cs row) = length row.
Proof. apply length_imap. Qed.

Lemma clear_row_lookup (cs : list nat) (row : list cell) (j : nat) :
  clear_row cs row !! j = (λ v, if decide (j ∈ cs) then Str [] else v) <$> row !! j.
Proof. apply list_lookup_imap. Qed.

Lemma clear_row_insert (c : nat) (cs : list nat) (row : list cell) :
  clear_row cs (<[c := Str []]> row) = clear_row (c :: cs) row.
Proof.
  apply list_eq; intros j. rewrite !clear_row_lookup.
  destruct (decide (c = j)) as [->|Hne].
  - destruct (decide (j < length row)) as [Hlt|Hge].
    + rewrite list_lookup_insert_eq by done.
      destruct (lookup_lt_is_Some_2 row j Hlt) as [v ->]. simpl.
      rewrite (decide_True (P := j ∈ j :: cs)) by left. by case_decide.
    + rewrite list_insert_ge by lia. rewrite lookup_ge_None_2 by lia. done.
  - rewrite list_lookup_insert_ne by done. destruct (row !! j); simpl; [|done].
    destruct (decide (j ∈ cs)) as [Hin|Hin].
    + rewrite decide_True; [done|by right].
    + rewrite decide_False; [done|]. intros [?|?]%elem_of_cons; [congruence|done].
Qed.

Lemma cleared_lookup (rows cs : list nat) (out : list (list cell)) (r : nat) :
  cleared rows cs out !! r
  = (λ row, if decide (r ∈ rows) then clear_row cs row else row) <$> out !! r.
Proof. apply list_lookup_imap. Qed.

Lemma length_cleared (rows cs : list nat) (out : list (list cell)) :
  length (cleared rows cs out) = length out.
Proof. apply length_imap. Qed.

Lemma cleared_nil (rows : list nat) (out : list (list cell)) : cleared rows [] out = out.
Proof.
  apply list_eq; intros r. rewrite cleared_lookup.
  destruct (out !! r); simpl; [|done]. case_decide; [|done]. by rewrite clear_row_nil.
Qed.

Lemma foldl_clear_step (rows cs : list nat) (out : list (list cell)) (n : nat) :
  (foldl (clear_step rows) (out, n) cs).1 = cleared rows cs out.
Proof.
  revert out n. induction cs as [|c cs IH]; intros out n; simpl.
  - by rewrite cleared_nil.
  - rewrite IH. apply list_eq; intros r. rewrite !cleared_lookup.
    unfold loc_set. rewrite list_lookup_imap.
    destruct (out !! r) as [row|]; simpl; [|done].
    case_decide; [|done]. by rewrite clear_row_insert.
Qed.

(** The loop reads membership only: two lists with the same elements clear alike. *)
Lemma clear_row_ext (cs cs' : list nat) (row : list cell) :
  (∀ j, j < length row → (j ∈ cs ↔ j ∈ cs')) → clear_row cs row = clear_row cs' row.
Proof.
  intros H. apply list_eq; intros j. rewrite !clear_row_lookup.
  destruct (row !! j) as [v|] eqn:Hv; simpl; [|done].
  apply lookup_lt_Some in Hv. specialize (H j Hv).
  destruct (decide (j ∈ cs)), (decide (j ∈ cs')); try done; exfalso; tauto.
Qed.

(** ** Rows to edit *)

Lemma as_text_fmap (astype_na : cell) (l : list cell) :
  as_text astype_na l = (λ v, fillna_cell [] (astype_str_cell astype_na v)) <$> l.
Proof. unfold as_text, fillna, astype_str. by rewrite <- list_fmap_compose. Qed.

Lemma as_text_lookup (astype_na : cell) (l : list cell) (j : nat) :
  as_text astype_na l !! j = (λ v, fillna_cell [] (astype_str_cell astype_na v)) <$> l !! j.
Proof. by rewrite as_text_fmap, list_lookup_fmap. Qed.

Lemma length_as_text (astype_na : cell) (l : list cell) :
  length (as_text astype_na l) = length l.
Proof. by rewrite as_text_fmap, length_fmap. Qed.

Lemma elem_of_rows_to_edit_of (astype_na : cell) (out : list (list cell))
    (col_supplier : nat) (protected_supplier : pystr) (r : nat) :
  r ∈ rows_to_edit_of astype_na out col_supplier protected_supplier
  ↔ data_start ≤ r
    ∧ ∃ row, out !! r = Some row
             ∧ Py.strip (text_of astype_na (default NaN (row !! col_supplier)))
               ≠ protected_supplier.
Proof.
  unfold rows_to_edit_of, suppliers_of, iloc_from.
  rewrite as_text_fmap, zip_enumerate_from, list_elem_of_fmap. split.
  - intros ([i v] & -> & Hin). apply list_elem_of_filter in Hin as [Hne Hin].
    apply elem_of_enumerate_from in Hin as [Hle Hv]. split; [done|].
    rewrite <- list_fmap_compose, list_lookup_fmap, lookup_drop in Hv.
    replace (data_start + (i - data_start)) with i in Hv by lia.
    destruct (out !! i) as [row|] eqn:Hrow; simplify_eq/=.
    exists row. split; [exact Hrow|apply Hne].
  - intros (Hle & row & Hrow & Hne).
    exists (r, fillna_cell [] (astype_str_cell astype_na (default NaN (row !! col_supplier)))).
    split; [done|]. apply list_elem_of_filter. split; [done|].
    apply elem_of_enumerate_from. split; [done|].
    rewrite <- list_fmap_compose, list_lookup_fmap, lookup_drop.
    replace (data_start + (r - data_start)) with r by lia. by rewrite Hrow.
Qed.

(** ** Dropping columns *)

Lemma drop_labels_nil (j : nat) (row : list cell) : drop_labels [] j row = row.
Proof.
  revert j. induction row as [|v row IH]; intros j; cbn [drop_labels]; [done|].
  destruct (decide (j ∈ [])) as [Hin|_]; [by apply not_elem_of_nil in Hin|]. by rewrite IH.
Qed.

Lemma drop_columns_nil (out : list (list cell)) : drop_columns [] out = out.
Proof.
  unfold drop_columns. rewrite <- (list_fmap_id out) at 2.
  apply list_fmap_ext. intros _ row _. apply drop_labels_nil.
Qed.

Lemma drop_labels_ext (labels labels' : list nat) (j : nat) (row : list cell) :
  (∀ i, j ≤ i → (i ∈ labels ↔ i ∈ labels')) →
  drop_labels labels j row = drop_labels labels' j row.
Proof.
  revert j. induction row as [|v row IH]; intros j H; simpl; [done|].
  rewrite (IH (S j)) by (intros i Hi; apply H; lia).
  destruct (decide (j ∈ labels)) as [Hin|Hin].
  - rewrite decide_True; [done|]. by apply H.
  - rewrite decide_False; [done|]. by rewrite <- H.
Qed.

Lemma drop_columns_lookup (labels : list nat) (out : list (list cell)) (r : nat) :
  drop_columns labels out !! r = drop_labels labels 0 <$> out !! r.
Proof. apply list_lookup_fmap. Qed.

(** ** The transformer as a whole *)

(** Once rows 0 and 1 are there and the supplier column is found, the transformer
    returns the cleared frame without its West columns, and its summary. *)
Lemma transform_order_sheet (astype_na : cell) (order : Workbook)
    (codes nicks : gset pystr) (protected_supplier west_prefix : pystr)
    (row0 row1 : list cell) (col_supplier : nat) :
  sheet order !! 0 = Some row0 →
  sheet order !! 1 = Some row1 →
  find_col (as_text astype_na row0) supplier_label = Some col_supplier →
  let columns_to_clear :=
    columns_to_clear_of (as_text astype_na row0) (as_text astype_na row1) codes nicks in
  let west_cols := west_cols_of (as_text astype_na row0) west_prefix in
  let rows_to_edit :=
    rows_to_edit_of astype_na (sheet order) col_supplier protected_supplier in
  ∃ cleared_cells,
    transform_order astype_na order codes nicks protected_supplier west_prefix
    = inr ({| sheet_name := sheet_name order;
              sheet := drop_columns west_cols
                         (cleared rows_to_edit (elements columns_to_clear) (sheet order)) |},
           {| summary_sheet_name := sheet_name order;
              columns_to_clear_count := size columns_to_clear;
              west_columns_dropped := length west_cols;
              rows_eligible_by_supplier_rule := length rows_to_edit;
              cleared_cells_estimate := cleared_cells;
              summary_protected_supplier := protected_supplier |}).
Proof.
  intros H0 H1 Hs. simpl. unfold transform_order. rewrite H0, H1, Hs.
  destruct (foldl _ _ _) as [out n] eqn:Hloop.
  exists n. f_equal. f_equal. f_equal.
  assert (out = cleared (rows_to_edit_of astype_na (sheet order) col_supplier protected_supplier)
                  (elements (columns_to_clear_of (as_text astype_na row0)
                               (as_text astype_na row1) codes nicks)) (sheet order)) as ->.
  { by rewrite <- foldl_clear_step with (n := 0), Hloop. }
  destruct (west_cols_of _ _) eqn:Hw; [|done]. by rewrite drop_columns_nil.
Qed.

Lemma transform_order_inr (astype_na : cell) (order : Workbook)
    (codes nicks : gset pystr) (protected_supplier west_prefix : pystr)
    (res : Workbook * Summary) :
  transform_order astype_na order codes nicks protected_supplier west_prefix = inr res →
  ∃ row0 row1 col_supplier,
    sheet order !! 0 = Some row0
    ∧ sheet order !! 1 = Some row1
    ∧ find_col (as_text astype_na row0) supplier_label = Some col_supplier.
Proof.
  unfold transform_order. intros H.
  destruct (sheet order !! 0) as [row0|]; [|done].
  destruct (sheet order !! 1) as [row1|]; [|done].
  destruct (find_col _ _) as [s|] eqn:Hs; [|done]. by exists row0, row1, s.
Qed.

Lemma transform_order_no_supplier (astype_na : cell) (order : Workbook)
    (codes nicks : gset pystr) (protected_supplier west_prefix : pystr)
    (row0 row1 : list cell) :
  sheet order !! 0 = Some row0 →
  sheet order !! 1 = Some row1 →
  find_col (as_text astype_na row0) supplier_label = None →
  transform_order astype_na order codes nicks protected_supplier west_prefix
  = inl RuntimeError.
Proof. intros H0 H1 Hs. unfold transform_order. by rewrite H0, H1, Hs. Qed.

Lemma text_of_as_text (astype_na : cell) (row : list cell) (j : nat) (t : cell) :
  as_text astype_na row !! j = Some t ↔ ∃ v, row !! j = Some v
    ∧ t = fillna_cell [] (astype_str_cell astype_na v).
Proof.
  rewrite as_text_lookup. destruct (row !! j) as [v|]; simpl.
  - split; [intros [= <-]; by exists v|]. by intros (w & [= <-] & ->).
  - split; [done|]. by intros (w & ? & _).
Qed.

(** The supplier column, read on the cells of row 0 themselves. *)
Lemma find_col_as_text_Some (astype_na : cell) (row0 : list cell) (name : pystr) (i : nat) :
  find_col (as_text astype_na row0) name = Some i
  ↔ (∃ v, row0 !! i = Some v ∧ Py.strip (text_of astype_na v) = name)
    ∧ ∀ j v, j < i → row0 !! j = Some v → Py.strip (text_of astype_na v) ≠ name.
Proof.
  rewrite find_col_Some. setoid_rewrite text_of_as_text. unfold text_of. split.
  - intros [(t & (v & Hv & ->) & Ht) Hfirst]. split; [by exists v|].
    intros j w Hj Hw. apply (Hfirst j); [done|]. by exists w.
  - intros [(v & Hv & Ht) Hfirst]. split; [eexists; split; [by exists v|done]|].
    intros j t Hj (w & Hw & ->). by apply (Hfirst j).
Qed.

Lemma find_col_as_text_None (astype_na : cell) (row0 : list cell) (name : pystr) :
  find_col (as_text astype_na row0) name = None
  ↔ ∀ j v, row0 !! j = Some v → Py.strip (text_of astype_na v) ≠ name.
Proof.
  rewrite find_col_None. setoid_rewrite text_of_as_text. unfold text_of. split.
  - intros H j v Hv. apply (H j). by exists v.
  - intros H j t (v & Hv & ->). by apply (H j).
Qed.

(** ** The claims about the clear-set, the failure and the untouched rows *)

(** C4. The clear-set of a sheet is a union: a column index is in it exactly when
    the code mapped to the column is one of [shop_codes], or the stripped label of
    the column in row 0 is one of [nicknames].  It is the union of the set got from
    the codes alone and the set got from the nicknames alone, it lists a column
    once whichever keys matched it, and its size is the count of the summary. *)
Theorem C4_clear_set_is_union (astype_na : cell) (row0 row1 : list cell)
    (shop_codes nicknames : gset pystr) :
  let hdr_nickname := as_text astype_na row0 in
  let hdr_address := as_text astype_na row1 in
  let clear_set := columns_to_clear_of hdr_nickname hdr_address shop_codes nicknames in
  (∀ j, j ∈ clear_set
        ↔ (∃ code, shop_cols_map_of hdr_address !! j = Some code ∧ code ∈ shop_codes)
          ∨ (∃ v, row0 !! j = Some v ∧ Py.strip (text_of astype_na v) ∈ nicknames))
  ∧ clear_set = columns_to_clear_of hdr_nickname hdr_address shop_codes ∅
                ∪ columns_to_clear_of hdr_nickname hdr_address ∅ nicknames
  ∧ NoDup (elements clear_set)
  ∧ (∀ j, j ∈ clear_set → length (filter (λ c, c = j) (elements clear_set)) = 1)
  ∧ length (elements clear_set) = size clear_set.
Proof.
  simpl.
  assert (∀ j, j ∈ columns_to_clear_of (as_text astype_na row0) (as_text astype_na row1)
                     shop_codes nicknames
        ↔ (∃ code, shop_cols_map_of (as_text astype_na row1) !! j = Some code
                   ∧ code ∈ shop_codes)
          ∨ (∃ v, row0 !! j = Some v ∧ Py.strip (text_of astype_na v) ∈ nicknames)) as Hmem.
  { intros j. rewrite elem_of_columns_to_clear_of. setoid_rewrite text_of_as_text.
    unfold text_of. split.
    - intros [Hc|(t & (v & Hv & ->) & Ht)]; [by left|right; by exists v].
    - intros [Hc|(v & Hv & Ht)]; [by left|right]. eexists; split; [by exists v|done]. }
  split; [done|]. split; [|split; [apply NoDup_elements|split; [|done]]].
  - apply set_eq. intros j. rewrite elem_of_union, !elem_of_columns_to_clear_of. split.
    + intros [Hc|Hn]; [left; by left|right; by right].
    + intros [[Hc|(v & _ & Hn)]|[(c & _ & Hc)|Hn]];
        [by left|by apply not_elem_of_empty in Hn|by apply not_elem_of_empty in Hc|by right].
  - intros j Hj. apply elem_of_elements in Hj.
    pose proof (NoDup_elements (columns_to_clear_of (as_text astype_na row0)
                                  (as_text astype_na row1) shop_codes nicknames)) as Hnd.
    induction Hnd as [|c cs Hc Hnd IH]; [by apply elem_of_nil in Hj|].
    rewrite filter_cons. apply elem_of_cons in Hj as [->|Hj].
    + rewrite decide_True by done. simpl. f_equal.
      clear IH. induction cs as [|c' cs IH]; [done|].
      rewrite filter_cons. apply not_elem_of_cons in Hc as [Hne Hc].
      rewrite decide_False by done. apply IH; [done|]. by apply NoDup_cons in Hnd as [_ ?].
    + rewrite decide_False; [by apply IH|]. intros ->. done.
Qed.

(** C8. For an order sheet with its rows 0 and 1, the transformer fails with the
    missing-supplier error exactly when no cell of row 0 has the supplier label as
    its stripped text, and it fails in no other way; a failure is an error value
    alone, without workbook or summary.  When it succeeds, the supplier column it
    uses is the first column of row 0 whose stripped text is the label. *)
Theorem C8_supplier_column_or_failure (astype_na : cell) (order : Workbook)
    (shop_codes nicknames : gset pystr) (protected_supplier west_prefix : pystr)
    (row0 row1 : list cell) :
  sheet order !! 0 = Some row0 →
  sheet order !! 1 = Some row1 →
  let result :=
    transform_order astype_na order shop_codes nicknames protected_supplier west_prefix in
  (result = inl RuntimeError
   ↔ ∀ j v, row0 !! j = Some v → Py.strip (text_of astype_na v) ≠ supplier_label)
  ∧ (∀ e, result = inl e → e = RuntimeError)
  ∧ (∀ wb sm, result = inr (wb, sm) →
       ∃ col_supplier v,
         row0 !! col_supplier = Some v
         ∧ Py.strip (text_of astype_na v) = supplier_label
         ∧ (∀ j w, j < col_supplier → row0 !! j = Some w →
                   Py.strip (text_of astype_na w) ≠ supplier_label)
         ∧ sheet wb
           = drop_columns (west_cols_of (as_text astype_na row0) west_prefix)
               (cleared (rows_to_edit_of astype_na (sheet order) col_supplier
                                         protected_supplier)
                        (elements (columns_to_clear_of (as_text astype_na row0)
                                     (as_text astype_na row1) shop_codes nicknames))
                        (sheet order))).
Proof.
  intros H0 H1. simpl.
  destruct (find_col (as_text astype_na row0) supplier_label) as [s|] eqn:Hs.
  - destruct (transform_order_sheet astype_na order shop_codes nicknames
                protected_supplier west_prefix row0 row1 s H0 H1 Hs) as [n Hres].
    simpl in Hres. rewrite Hres.
    apply find_col_as_text_Some in Hs as [(v & Hv & Ht) Hfirst].
    split; [|split].
    + split; [done|]. intros H. by destruct (H s v).
    + done.
    + intros wb sm [= <- <-]. by exists s, v.
  - rewrite (transform_order_no_supplier astype_na order shop_codes nicknames
               protected_supplier west_prefix row0 row1 H0 H1 Hs).
    pose proof (proj1 (find_col_as_text_None astype_na row0 supplier_label) Hs) as Hnone.
    split; [|split].
    + done.
    + by intros e [= <-].
    + done.
Qed.

(** C1. In a sheet with a supplier column, a row at index 3 or later whose
    supplier cell has the protected supplier as its stripped text comes out as it
    went in, without the cells of the West columns: the clearing changes none of
    its cells, whatever the clear-set. *)
Theorem C1_protected_rows_untouched (astype_na : cell) (order : Workbook)
    (shop_codes nicknames : gset pystr) (protected_supplier west_prefix : pystr)
    (row0 row : list cell) (col_supplier r : nat) (v : cell) :
  sheet order !! 0 = Some row0 →
  find_col (as_text astype_na row0) supplier_label = Some col_supplier →
  3 ≤ r →
  sheet order !! r = Some row →
  row !! col_supplier = Some v →
  Py.strip (text_of astype_na v) = protected_supplier →
  ∃ wb sm,
    transform_order astype_na order shop_codes nicknames protected_supplier west_prefix
    = inr (wb, sm)
    ∧ sheet wb !! r
      = Some (drop_labels (west_cols_of (as_text astype_na row0) west_prefix) 0 row).
Proof.
  intros H0 Hs Hr Hrow Hv Hprot.
  destruct (sheet order !! 1) as [row1|] eqn:H1.
  2:{ apply lookup_ge_None in H1. apply lookup_lt_Some in Hrow. lia. }
  destruct (transform_order_sheet astype_na order shop_codes nicknames
              protected_supplier west_prefix row0 row1 col_supplier H0 H1 Hs) as [n Hres].
  simpl in Hres. eexists _, _. split; [exact Hres|]. simpl.
  rewrite drop_columns_lookup, cleared_lookup, Hrow. simpl.
  rewrite decide_False; [done|].
  rewrite elem_of_rows_to_edit_of. intros (_ & row' & Hrow' & Hne).
  rewrite Hrow in Hrow'. injection Hrow' as <-. by rewrite Hv in Hne.
Qed.

(** ** West columns as a choice of headers *)

Lemma west_labels_ge (west_prefix : pystr) (hn : list cell) (start i : nat) :
  i ∈ (filter (λ iv : nat * cell, Py.startswith (Py.strip (str iv.2)) west_prefix = true)
              (enumerate_from start hn)).*1 →
  start ≤ i.
Proof.
  intros ([i' v] & -> & Hin)%list_elem_of_fmap.
  apply list_elem_of_filter in Hin as [_ Hin].
  by apply elem_of_enumerate_from in Hin as [? _].
Qed.

Lemma drop_labels_west_from (west_prefix : pystr) (hn row : list cell) (start : nat) :
  length row = length hn →
  drop_labels
    (filter (λ iv : nat * cell, Py.startswith (Py.strip (str iv.2)) west_prefix = true)
            (enumerate_from start hn)).*1 start row
  = keep_by (λ v, negb (is_west west_prefix v)) hn row.
Proof.
  revert row start. induction hn as [|k hn IH]; intros [|x row] start Hlen;
    simplify_eq/=; [done|].
  rewrite filter_cons. unfold is_west at 1. simpl.
  destruct (decide (Py.startswith (Py.strip (str k)) west_prefix = true)) as [Hw|Hw].
  - rewrite Hw. simpl. rewrite decide_True by left.
    rewrite <- (IH row (S start)) by done. apply drop_labels_ext.
    intros i Hi. rewrite elem_of_cons. split; [intros [->|?]; [lia|done]|by right].
  - apply not_true_is_false in Hw. rewrite Hw. simpl.
    rewrite decide_False.
    + f_equal. by apply IH.
    + intros Hin%west_labels_ge. lia.
Qed.

Lemma drop_labels_west (west_prefix : pystr) (hn row : list cell) :
  length row = length hn →
  drop_labels (west_cols_of hn west_prefix) 0 row
  = keep_by (λ v, negb (is_west west_prefix v)) hn row.
Proof. apply drop_labels_west_from. Qed.

Lemma length_keep_by_west_from (west_prefix : pystr) (hn row : list cell) (start : nat) :
  length row = length hn →
  length (keep_by (λ v, negb (is_west west_prefix v)) hn row)
  + length (filter (λ iv : nat * cell,
                      Py.startswith (Py.strip (str iv.2)) west_prefix = true)
                   (enumerate_from start hn)).*1
  = length hn.
Proof.
  revert row start. induction hn as [|k hn IH]; intros [|x row] start Hlen;
    simplify_eq/=; [done|].
  rewrite filter_cons. unfold is_west at 1. simpl.
  destruct (decide (Py.startswith (Py.strip (str k)) west_prefix = true)) as [Hw|Hw].
  - rewrite Hw. simpl. rewrite Nat.add_succ_r. f_equal. by apply IH.
  - apply not_true_is_false in Hw. rewrite Hw. simpl. f_equal. by apply IH.
Qed.

Lemma length_drop_labels_west (west_prefix : pystr) (hn row : list cell) :
  length row = length hn →
  length (drop_labels (west_cols_of hn west_prefix) 0 row)
  = length hn - length (west_cols_of hn west_prefix).
Proof.
  intros Hlen. rewrite drop_labels_west by done.
  pose proof (length_keep_by_west_from west_prefix hn row 0 Hlen) as H.
  unfold west_cols_of, enumerate. lia.
Qed.

Lemma NoDup_west_cols_of (hn : list cell) (west_prefix : pystr) :
  NoDup (west_cols_of hn west_prefix).
Proof.
  unfold west_cols_of, enumerate. generalize 0.
  induction hn as [|k hn IH]; intros start; simpl; [constructor|].
  rewrite filter_cons. case_decide as Hw; simpl; [|apply IH].
  constructor; [|apply IH]. intros Hin%west_labels_ge. lia.
Qed.

(** Cells under the dropped labels do not show in what is left. *)
Lemma drop_labels_agree (labels : list nat) (start : nat) (l1 l2 : list cell) :
  length l1 = length l2 →
  (∀ i, start + i ∉ labels → l1 !! i = l2 !! i) →
  drop_labels labels start l1 = drop_labels labels start l2.
Proof.
  revert start l2. induction l1 as [|x l1 IH]; intros start [|y l2] Hlen H;
    simplify_eq/=; [done|].
  assert (drop_labels labels (S start) l1 = drop_labels labels (S start) l2) as ->.
  { apply IH; [done|]. intros i Hi. apply (H (S i)).
    by replace (start + S i) with (S start + i) by lia. }
  case_decide as Hin; [done|]. f_equal.
  specialize (H 0). rewrite Nat.add_0_r in H. specialize (H Hin). by simplify_eq/=.
Qed.

(** ** The claims about rows and West columns *)

(** What is left of a row lists, in their order, the cells whose column label is
    not among the dropped ones. *)
Lemma drop_labels_cells_from (labels : list nat) (start : nat) (row : list cell) :
  Some <$> drop_labels labels start row
  = (λ j, row !! (j - start)) <$> filter (λ j, j ∉ labels) (seq start (length row)).
Proof.
  revert start. induction row as [|v row IH]; intros start; [done|].
  cbn [drop_labels length seq]. rewrite filter_cons.
  assert ((λ j, (v :: row) !! (j - start))
            <$> filter (λ j, j ∉ labels) (seq (S start) (length row))
          = (λ j, row !! (j - S start))
              <$> filter (λ j, j ∉ labels) (seq (S start) (length row))) as Htail.
  { apply list_fmap_ext. intros i j Hj.
    apply list_elem_of_lookup_2, list_elem_of_filter in Hj as [_ Hj].
    apply elem_of_seq in Hj as [Hge _].
    by replace (j - start) with (S (j - S start)) by lia. }
  destruct (decide (start ∈ labels)) as [Hin|Hin].
  - rewrite decide_False by tauto. by rewrite IH, Htail.
  - rewrite decide_True by done. rewrite !fmap_cons, Nat.sub_diag, IH, Htail. done.
Qed.

Lemma drop_labels_cells (labels : list nat) (row : list cell) :
  Some <$> drop_labels labels 0 row
  = (λ j, row !! j) <$> filter (λ j, j ∉ labels) (seq 0 (length row)).
Proof.
  rewrite drop_labels_cells_from. apply list_fmap_ext. intros _ j _.
  by rewrite Nat.sub_0_r.
Qed.

(** C6. Rows 0, 1 and 2 are never cleared, and the West columns are dropped from
    them as from every row: a row comes out as the list, in order, of its cells in
    the columns that are not West, those of rows 0 to 2 being the cells that went
    in.  The West columns are the ones whose stripped label in row 0 starts with
    the prefix, and in a sheet of [ncols] columns every row comes out shorter by
    their number.  A cell that the clearing changed holds the empty text (a text,
    not the missing value), and only rows from index 3 on have such cells.  The
    sheet keeps its number of rows. *)
Theorem C6_header_rows_and_row_count (astype_na : cell) (order wb : Workbook)
    (shop_codes nicknames : gset pystr) (protected_supplier west_prefix : pystr)
    (sm : Summary) :
  transform_order astype_na order shop_codes nicknames protected_supplier west_prefix
  = inr (wb, sm) →
  ∃ row0,
    sheet order !! 0 = Some row0
    ∧ length (sheet wb) = length (sheet order)
    ∧ let west_cols := west_cols_of (as_text astype_na row0) west_prefix in
      (∀ j, j ∈ west_cols
            ↔ ∃ v, row0 !! j = Some v
                   ∧ Py.startswith (Py.strip (text_of astype_na v)) west_prefix = true)
      ∧ ∀ r row,
          sheet order !! r = Some row →
          ∃ row' out_row,
            sheet wb !! r = Some out_row
            ∧ out_row = drop_labels west_cols 0 row'
            ∧ Some <$> out_row
              = (λ j, row' !! j) <$> filter (λ j, j ∉ west_cols) (seq 0 (length row'))
            ∧ (∀ ncols, rectangular ncols (sheet order) →
                        length out_row = ncols - length west_cols)
            ∧ length row' = length row
            ∧ (r < 3 → row' = row)
            ∧ (∀ j v, row' !! j = Some v →
                      row !! j = Some v ∨ (v = Str [] ∧ v ≠ NaN ∧ 3 ≤ r)).
Proof.
  intros Hres.
  destruct (transform_order_inr _ _ _ _ _ _ _ Hres) as (row0 & row1 & s & H0 & H1 & Hs).
  destruct (transform_order_sheet astype_na order shop_codes nicknames
              protected_supplier west_prefix row0 row1 s H0 H1 Hs) as [n Hres'].
  simpl in Hres'. rewrite Hres' in Hres. injection Hres as <- <-.
  exists row0. split; [done|]. simpl. split.
  { unfold drop_columns. by rewrite length_fmap, length_cleared. }
  split.
  { intros j. rewrite elem_of_west_cols_of. setoid_rewrite text_of_as_text.
    unfold text_of. split.
    - intros (t & (v & Hv & ->) & Ht). by exists v.
    - intros (v & Hv & Ht). eexists; split; [by exists v|done]. }
  intros r row Hrow. rewrite drop_columns_lookup, cleared_lookup, Hrow. simpl.
  eexists _, _. split; [reflexivity|]. split; [reflexivity|].
  split; [apply drop_labels_cells|].
  assert (∀ row' ncols, length row' = length row → rectangular ncols (sheet order) →
            length (drop_labels (west_cols_of (as_text astype_na row0) west_prefix) 0 row')
            = ncols - length (west_cols_of (as_text astype_na row0) west_prefix)) as Hshort.
  { intros row' ncols Hlen Hrect.
    assert (length (as_text astype_na row0) = ncols) as Hlen0.
    { rewrite length_as_text. apply (Forall_lookup_1 _ _ _ _ Hrect H0). }
    rewrite <- Hlen0. apply length_drop_labels_west.
    rewrite Hlen0, Hlen. apply (Forall_lookup_1 _ _ _ _ Hrect Hrow). }
  destruct (decide (r ∈ rows_to_edit_of astype_na (sheet order) s protected_supplier))
    as [Hin|Hin].
  - apply elem_of_rows_to_edit_of in Hin as [Hge _]. unfold data_start in Hge.
    split; [intros ncols; apply Hshort, length_clear_row|].
    split; [apply length_clear_row|]. split; [lia|].
    intros j v. rewrite clear_row_lookup.
    destruct (row !! j) as [w|]; simpl; [|done].
    case_decide; intros [= <-]; [by right|by left].
  - split; [intros ncols; by apply Hshort|].
    split; [done|]. split; [done|]. intros j v Hv. by left.
Qed.

(** C5. The West columns are the columns whose stripped label in row 0 starts
    with the prefix, whatever the lookup sets.  They are dropped from every row,
    rows 0 to 2 too, so a sheet of [ncols] columns comes out with [ncols] less
    the number of West columns.  What comes out is the same as if no West column
    had been in the clear-set, and with both lookup sets empty it is the input
    without its West columns. *)
Theorem C5_west_columns_removed (astype_na : cell) (order wb : Workbook)
    (shop_codes nicknames : gset pystr) (protected_supplier west_prefix : pystr)
    (sm : Summary) (ncols : nat) :
  rectangular ncols (sheet order) →
  transform_order astype_na order shop_codes nicknames protected_supplier west_prefix
  = inr (wb, sm) →
  ∃ row0 row1 col_supplier,
    sheet order !! 0 = Some row0
    ∧ sheet order !! 1 = Some row1
    ∧ find_col (as_text astype_na row0) supplier_label = Some col_supplier
    ∧ let west_cols := west_cols_of (as_text astype_na row0) west_prefix in
      let clear_set :=
        columns_to_clear_of (as_text astype_na row0) (as_text astype_na row1)
                            shop_codes nicknames in
      let rows_to_edit :=
        rows_to_edit_of astype_na (sheet order) col_supplier protected_supplier in
      (∀ j, j ∈ west_cols
            ↔ ∃ v, row0 !! j = Some v
                   ∧ Py.startswith (Py.strip (text_of astype_na v)) west_prefix = true)
      ∧ NoDup west_cols
      ∧ west_columns_dropped sm = length west_cols
      ∧ sheet wb
        = drop_columns west_cols
            (cleared rows_to_edit (elements clear_set) (sheet order))
      ∧ rectangular (ncols - length west_cols) (sheet wb)
      ∧ sheet wb
        = drop_columns west_cols
            (cleared rows_to_edit (elements (clear_set ∖ list_to_set west_cols))
                     (sheet order))
      ∧ ∃ sm0,
          transform_order astype_na order ∅ ∅ protected_supplier west_prefix
          = inr ({| sheet_name := sheet_name order;
                    sheet := drop_columns west_cols (sheet order) |}, sm0).
Proof.
  intros Hrect Hres.
  destruct (transform_order_inr _ _ _ _ _ _ _ Hres) as (row0 & row1 & s & H0 & H1 & Hs).
  destruct (transform_order_sheet astype_na order shop_codes nicknames
              protected_supplier west_prefix row0 row1 s H0 H1 Hs) as [n Hres'].
  simpl in Hres'. rewrite Hres' in Hres. injection Hres as <- <-.
  exists row0, row1, s. do 3 (split; [done|]). simpl.
  assert (length (as_text astype_na row0) = ncols) as Hlen0.
  { rewrite length_as_text. eapply (Forall_lookup_1 _ _ _ _ Hrect H0). }
  split; [|split; [apply NoDup_west_cols_of|split; [done|split; [done|split; [|split]]]]].
  - intros j. rewrite elem_of_west_cols_of. setoid_rewrite text_of_as_text.
    unfold text_of. split.
    + intros (t & (v & Hv & ->) & Ht). by exists v.
    + intros (v & Hv & Ht). eexists; split; [by exists v|done].
  - apply Forall_lookup_2. intros r row'.
    rewrite drop_columns_lookup, cleared_lookup.
    destruct (sheet order !! r) as [row|] eqn:Hrow; simpl; [|done].
    intros [= <-]. rewrite <- Hlen0. apply length_drop_labels_west.
    rewrite Hlen0. pose proof (Forall_lookup_1 _ _ _ _ Hrect Hrow) as Hlen. simpl in Hlen.
    case_decide; [by rewrite length_clear_row|done].
  - unfold drop_columns. apply list_eq; intros r.
    rewrite !list_lookup_fmap, !cleared_lookup.
    destruct (sheet order !! r) as [row|]; simpl; [|done]. f_equal.
    case_decide; [|done]. apply drop_labels_agree.
    + by rewrite !length_clear_row.
    + intros j Hj. simpl in Hj. rewrite !clear_row_lookup.
      destruct (row !! j) as [v|]; simpl; [|done]. f_equal.
      destruct (decide (j ∈ elements _)) as [Hin|Hin];
        destruct (decide (j ∈ elements (_ ∖ _))) as [Hin'|Hin']; try done; exfalso.
      * apply Hin'. apply elem_of_elements, elem_of_difference.
        split; [by apply elem_of_elements|]. by rewrite elem_of_list_to_set.
      * apply Hin. apply elem_of_elements.
        by apply elem_of_elements, elem_of_difference in Hin' as [? _].
  - destruct (transform_order_sheet astype_na order ∅ ∅
                protected_supplier west_prefix row0 row1 s H0 H1 Hs) as [n0 Hres0].
    simpl in Hres0. rewrite Hres0. eexists. f_equal. f_equal. f_equal. f_equal.
    assert (columns_to_clear_of (as_text astype_na row0) (as_text astype_na row1) ∅ ∅
            = ∅) as ->.
    { apply set_eq. intros j. rewrite elem_of_columns_to_clear_of. split.
      - intros [(c & _ & Hc)|(v & _ & Hv)]; by apply not_elem_of_empty in Hc || by apply not_elem_of_empty in Hv.
      - by intros ?%not_elem_of_empty. }
    rewrite elements_empty. apply cleared_nil.
Qed.

(** ** The loader *)

Lemma shop_code_ne_nickname : Loader.shop_code ≠ Loader.shop_nickname_optional.
Proof. intros H. vm_compute in H. discriminate H. Qed.

Lemma normalise_eq (tpl : gmap pystr (list pystr)) :
  Loader.normalise tpl
  = match tpl !! Loader.shop_code with
    | None => inl ValueError
    | Some codes =>
        inr (Loader.non_empty_set ((λ s, Py.strip (Re.replace_dot0 s)) <$> codes),
             Loader.non_empty_set
               (Py.strip <$> match tpl !! Loader.shop_nickname_optional with
                             | Some nick => nick
                             | None => replicate (length codes) []
                             end))
    end.
Proof.
  pose proof shop_code_ne_nickname as Hne.
  unfold Loader.normalise. destruct (tpl !! Loader.shop_code) as [codes|]; [|done].
  destruct (tpl !! Loader.shop_nickname_optional) as [nick|] eqn:Hnick.
  - rewrite lookup_insert_eq. rewrite lookup_insert_ne by done. rewrite lookup_insert_eq.
    rewrite lookup_insert_ne by done. by rewrite Hnick.
  - rewrite lookup_insert_eq. rewrite lookup_insert_ne by done. rewrite lookup_insert_eq.
    rewrite lookup_insert_ne by done. by rewrite lookup_insert_eq.
Qed.

Lemma non_empty_set_blank (col : list pystr) :
  Forall (λ s, s = []) col → Loader.non_empty_set (Py.strip <$> col) = ∅.
Proof.
  unfold Loader.non_empty_set. induction 1 as [|s col -> _ IH]; [done|].
  rewrite fmap_cons, filter_cons. rewrite decide_False; [exact IH|]. intros H. by apply H.
Qed.

(** C9. The loader fails with the missing-column error exactly when the template
    has no [shop_code] column, and it fails in no other way on a template it could
    read; both entry points agree.  Without the nickname column it returns the
    empty nickname set, and the same result as with that column present and
    wholly empty. *)
Theorem C9_loader_fails_on_missing_shop_code (template : gmap pystr Loader.column) :
  (Loader.load_template_from_bytes template = inl ValueError
   ↔ template !! Loader.shop_code = None)
  ∧ (∀ e, Loader.load_template_from_bytes template = inl e → e = ValueError)
  ∧ Loader.load_template_from_file (Some template)
    = Loader.load_template_from_bytes template
  ∧ (∀ codes,
       template !! Loader.shop_code = Some codes →
       template !! Loader.shop_nickname_optional = None →
       (∃ shop_codes,
           Loader.load_template_from_bytes template = inr (shop_codes, ∅))
       ∧ ∀ empty_column,
           Forall (λ c, c = None ∨ c = Some []) empty_column →
           Loader.load_template_from_bytes
             (<[Loader.shop_nickname_optional := empty_column]> template)
           = Loader.load_template_from_bytes template).
Proof.
  pose proof shop_code_ne_nickname as Hne.
  unfold Loader.load_template_from_file, Loader.load_template_from_bytes.
  rewrite normalise_eq, !lookup_fmap.
  split; [|split; [|split; [done|]]].
  - destruct (template !! Loader.shop_code); simpl; split; done.
  - intros e. destruct (template !! Loader.shop_code); simpl; [done|]. by intros [= <-].
  - intros codes Hcodes Hnick. rewrite Hcodes, Hnick. simpl.
    assert (Loader.non_empty_set (Py.strip <$> replicate (length (Loader.fillna [] codes)) [])
            = ∅) as Hempty.
    { apply non_empty_set_blank. apply Forall_forall. by intros s [-> _]%elem_of_replicate. }
    split; [eexists; by rewrite Hempty|].
    intros col Hcol. rewrite normalise_eq, !lookup_fmap.
    rewrite lookup_insert_ne by done. rewrite lookup_insert_eq, Hcodes. simpl.
    rewrite Hempty. f_equal. f_equal.
    apply non_empty_set_blank. unfold Loader.fillna.
    apply Forall_fmap. eapply Forall_impl; [exact Hcol|]. by intros c [->| ->].
Qed.

(** ** Where the code and its description part *)

(** The group the code's pattern captures starts with a backslash: it is never a
    run of digits. *)
Lemma match_code_backslash (s g : pystr) :
  Re.match_code s = Some g → ∃ ds, g = Re.backslash :: ds.
Proof.
  unfold Re.match_code. destruct s as [|h [|b s]]; [done..|].
  destruct ((h =? Re.hash)%N && (b =? Re.backslash)%N) eqn:Hhb; [|done].
  apply andb_true_iff in Hhb as [_ Hb%N.eqb_eq]. subst b.
  destruct (Re.span_d s) as [[|d ds] [|h' r]]; try done.
  destruct (h' =? Re.hash)%N; [|done]. intros [= <-]. by eexists.
Qed.

Lemma search_code_backslash (s g : pystr) :
  Re.search_code s = Some g → ∃ ds, g = Re.backslash :: ds.
Proof.
  induction s as [|c s IH]; [done|]. cbn [Re.search_code].
  destruct (Re.match_code (c :: s)) as [g'|] eqn:Hm.
  - intros [= <-]. by eapply match_code_backslash.
  - exact IH.
Qed.

(** C2. An address cell "#037# and also #099#" holds the token 037 of the
    description, and the code's pattern finds no match in it: the column gets no
    entry in the map, and a removal list with the code 037 selects no column. *)
Theorem C2_digit_token_not_recorded :
  let hdr_address := as_text astype_na_text [NaN; Str (py "#037# and also #099#"); NaN] in
  SpecText.first_token (py "#037# and also #099#") = Some (py "037")
  ∧ Re.search_code (py "#037# and also #099#") = None
  ∧ shop_cols_map_of hdr_address !! 1 = None
  ∧ shop_cols_map_of hdr_address = ∅
  ∧ columns_to_clear_of
      (as_text astype_na_text [Str supplier_label; Str (py "shop"); Str default_west_prefix])
      hdr_address {[py "037"]} ∅ = ∅
  ∧ ∃ sm,
      transform_order astype_na_text order_three_columns {[py "037"]} ∅
                      default_protected_supplier default_west_prefix
      = inr ({| sheet_name := py "TDSheet";
                sheet := [ [Str supplier_label; Str (py "shop")];
                           [NaN; Str (py "#037# and also #099#")];
                           [NaN; Str (py "qty")];
                           [Str (py "other"); Other (py "5")];
                           [Str default_protected_supplier; Other (py "7")] ] |}, sm).
Proof.
  simpl. repeat split; try (vm_compute; reflexivity).
  eexists. vm_compute. reflexivity.
Qed.

(** C3. The identifier "465.0" of a template is kept as it is: the code's
    pattern wants a backslash before the last two characters, so the suffix the
    description strips stays, by either entry point. *)
Theorem C3_trailing_dot0_kept :
  SpecText.strip_trailing_dot0 (py "465.0") = py "465"
  ∧ Re.replace_dot0 (py "465.0") = py "465.0"
  ∧ Loader.load_template_from_bytes {[ Loader.shop_code := [Some (py "465.0")] ]}
    = inr ({[ py "465.0" ]}, ∅)
  ∧ Loader.load_template_from_file (Some {[ Loader.shop_code := [Some (py "465.0")] ]})
    = inr ({[ py "465.0" ]}, ∅).
Proof. repeat split; vm_compute; reflexivity. Qed.

(** Where the conversion to text is element by element, a missing cell of row 0
    reads as the text "nan", not as the empty text: the filling that follows
    finds nothing to fill.  A removal list with the nickname "nan" then clears the
    column without a label, which a label read as empty text would not match. *)
Remark elementwise_conversion_reads_nan :
  as_text astype_na_text [Str supplier_label; NaN]
  = [Str supplier_label; Str (py "nan")]
  ∧ text_of astype_na_text NaN = py "nan"
  ∧ columns_to_clear_of (as_text astype_na_text [Str supplier_label; NaN])
                        (as_text astype_na_text [Str (py "address"); NaN])
                        ∅ {[py "nan"]} = {[1]}
  ∧ (∃ sm,
       transform_order astype_na_text order_missing_label ∅ {[py "nan"]}
                       default_protected_supplier default_west_prefix
       = inr ({| sheet_name := py "TDSheet";
                 sheet := [ [Str supplier_label; NaN];
                            [Str (py "address"); NaN];
                            [Str (py "label"); Str (py "label")];
                            [Str (py "other"); Str []];
                            [NaN; Str []] ] |}, sm))
  ∧ (∃ sm,
       transform_order astype_na_kept order_missing_label ∅ {[py "nan"]}
                       default_protected_supplier default_west_prefix
       = inr (order_missing_label, sm)).
Proof.
  repeat split; try (vm_compute; reflexivity); eexists; vm_compute; reflexivity.
Qed.




(** ** A second run on the output of the first *)

Lemma keep_by_fmap {A B C : Type} (p : A → bool) (f : B → C) (ks : list A) (l : list B) :
  keep_by p ks (f <$> l) = f <$> keep_by p ks l.
Proof.
  revert l. induction ks as [|k ks IH]; intros [|x l]; simpl; try done.
  destruct (p k); simpl; by rewrite IH.
Qed.

Lemma keep_by_lookup {A B : Type} (p : A → bool) (ks : list A) (l : list B) (j' : nat) :
  length l = length ks →
  keep_by p ks l !! j' = kept_index p ks j' ≫= λ j, l !! j.
Proof.
  revert l j'. induction ks as [|k ks IH]; intros [|x l] j' Hlen; simplify_eq/=; [done|].
  destruct (p k).
  - destruct j' as [|j']; simpl; [done|]. rewrite IH by done.
    by destruct (kept_index p ks j').
  - rewrite IH by done. by destruct (kept_index p ks j').
Qed.

Lemma keep_by_self_Forall {A : Type} (p : A → bool) (ks : list A) :
  Forall (λ k, p k = true) (keep_by p ks ks).
Proof.
  induction ks as [|k ks IH]; simpl; [constructor|].
  destruct (p k) eqn:Hk; [by constructor|done].
Qed.

Lemma west_cols_of_none (hn : list cell) (west_prefix : pystr) :
  Forall (λ v, negb (is_west west_prefix v) = true) hn →
  west_cols_of hn west_prefix = [].
Proof.
  intros Hall. destruct (west_cols_of hn west_prefix) as [|j l] eqn:Hw; [done|].
  assert (j ∈ west_cols_of hn west_prefix) as Hj by (rewrite Hw; left).
  apply elem_of_west_cols_of in Hj as (v & Hv & Hwest).
  pose proof (Forall_lookup_1 _ _ _ _ Hall Hv) as Hnot. simpl in Hnot.
  unfold is_west in Hnot. rewrite Hwest in Hnot. done.
Qed.

Lemma find_col_keep_by (p : cell → bool) (name : pystr) (ks : list cell)
    (start start' s : nat) :
  (∀ v, Py.strip (str v) = name → p v = true) →
  find_col_loop (enumerate_from start ks) name = Some s →
  ∃ s', find_col_loop (enumerate_from start' (keep_by p ks ks)) name = Some s'
        ∧ start' ≤ s' ∧ start ≤ s
        ∧ kept_index p ks (s' - start') = Some (s - start).
Proof.
  intros Hp. revert start start'. induction ks as [|k ks IH]; intros start start'; [done|].
  cbn [enumerate_from find_col_loop keep_by kept_index].
  destruct (decide (Py.strip (str k) = name)) as [Hk|Hk].
  - intros [= <-]. rewrite (Hp k Hk). simpl. rewrite decide_True by done.
    exists start'. rewrite !Nat.sub_diag. by repeat split.
  - intros Hs. destruct (p k) eqn:Hpk.
    + destruct (IH (S start) (S start') Hs) as (s' & Hs' & Hle' & Hle & Hidx).
      exists s'. simpl. rewrite decide_False by done.
      split; [done|]. split; [lia|]. split; [lia|].
      replace (s' - start') with (S (s' - S start')) by lia.
      rewrite Hidx. simpl. f_equal. lia.
    + destruct (IH (S start) start' Hs) as (s' & Hs' & Hle' & Hle & Hidx).
      exists s'. split; [done|]. split; [lia|]. split; [lia|].
      rewrite Hidx. simpl. f_equal. lia.
Qed.

Lemma cleared_id (rows cs : list nat) (out : list (list cell)) :
  (∀ r row j, r ∈ rows → out !! r = Some row → j ∈ cs → j < length row →
              row !! j = Some (Str [])) →
  cleared rows cs out = out.
Proof.
  intros H. apply list_eq; intros r. rewrite cleared_lookup.
  destruct (out !! r) as [row|] eqn:Hrow; simpl; [|done]. f_equal.
  case_decide as Hr; [|done]. apply list_eq; intros j. rewrite clear_row_lookup.
  destruct (row !! j) as [v|] eqn:Hv; simpl; [|done]. f_equal.
  case_decide as Hj; [|done].
  specialize (H r row j Hr Hrow Hj (lookup_lt_Some _ _ _ Hv)). congruence.
Qed.

(** C10, as the code has it.  When the supplier label does not start with the
    West prefix, a second run on the sheet the first run produced succeeds and
    returns that sheet as it is: it finds no West column to drop, and every cell
    it clears already holds the empty text. *)
Theorem C10_second_run_keeps_sheet (astype_na : cell) (order wb : Workbook)
    (shop_codes nicknames : gset pystr) (protected_supplier west_prefix : pystr)
    (sm : Summary) (ncols : nat) :
  rectangular ncols (sheet order) →
  Py.startswith supplier_label west_prefix = false →
  transform_order astype_na order shop_codes nicknames protected_supplier west_prefix
  = inr (wb, sm) →
  ∃ sm',
    transform_order astype_na wb shop_codes nicknames protected_supplier west_prefix
    = inr (wb, sm')
    ∧ west_columns_dropped sm' = 0.
Proof.
  intros Hrect Hwp Hres.
  destruct (transform_order_inr _ _ _ _ _ _ _ Hres) as (row0 & row1 & s & H0 & H1 & Hs).
  destruct (transform_order_sheet astype_na order shop_codes nicknames
              protected_supplier west_prefix row0 row1 s H0 H1 Hs) as [n Hres'].
  simpl in Hres'. rewrite Hres' in Hres. injection Hres as <- <-. clear Hres'.
  set (hn := as_text astype_na row0) in *.
  set (ha := as_text astype_na row1) in *.
  set (p := λ v, negb (is_west west_prefix v)).
  set (E := rows_to_edit_of astype_na (sheet order) s protected_supplier).
  set (C := columns_to_clear_of hn ha shop_codes nicknames).
  set (out1 := drop_columns (west_cols_of hn west_prefix)
                 (cleared E (elements C) (sheet order))).
  assert (length hn = ncols) as Hlen0.
  { unfold hn. rewrite length_as_text. apply (Forall_lookup_1 _ _ _ _ Hrect H0). }
  assert (length ha = length hn) as Hlen1.
  { unfold ha. rewrite length_as_text, Hlen0. apply (Forall_lookup_1 _ _ _ _ Hrect H1). }
  assert (∀ r, out1 !! r
               = (λ row, keep_by p hn (if decide (r ∈ E) then clear_row (elements C) row
                                       else row)) <$> sheet order !! r) as Hout1.
  { intros r. unfold out1. rewrite drop_columns_lookup, cleared_lookup.
    destruct (sheet order !! r) as [row|] eqn:Hrow; simpl; [|done]. f_equal.
    apply drop_labels_west. rewrite Hlen0.
    pose proof (Forall_lookup_1 _ _ _ _ Hrect Hrow) as Hlen. simpl in Hlen.
    case_decide; [by rewrite length_clear_row|done]. }
  assert (∀ r, r < 3 → r ∉ E) as Hhead.
  { intros r Hr [Hge _]%elem_of_rows_to_edit_of. unfold data_start in Hge. lia. }
  assert (out1 !! 0 = Some (keep_by p hn row0)) as H0'.
  { rewrite Hout1, H0. simpl. rewrite decide_False; [done|]. apply Hhead. lia. }
  assert (out1 !! 1 = Some (keep_by p hn row1)) as H1'.
  { rewrite Hout1, H1. simpl. rewrite decide_False; [done|]. apply Hhead. lia. }
  assert (as_text astype_na (keep_by p hn row0) = keep_by p hn hn) as Hhn'.
  { unfold hn. by rewrite !as_text_fmap, keep_by_fmap. }
  assert (as_text astype_na (keep_by p hn row1) = keep_by p hn ha) as Hha'.
  { unfold ha. by rewrite !as_text_fmap, keep_by_fmap. }
  assert (∀ v, Py.strip (str v) = supplier_label → p v = true) as Hp.
  { intros v Hv. unfold p, is_west. by rewrite Hv, Hwp. }
  destruct (find_col_keep_by p supplier_label hn 0 0 s Hp Hs) as (s' & Hs' & _ & _ & Hidx).
  rewrite !Nat.sub_0_r in Hidx.
  assert (find_col (as_text astype_na (keep_by p hn row0)) supplier_label = Some s') as Hs''.
  { by rewrite Hhn'. }
  destruct (transform_order_sheet astype_na
              {| sheet_name := sheet_name order; sheet := out1 |}
              shop_codes nicknames protected_supplier west_prefix
              (keep_by p hn row0) (keep_by p hn row1) s' H0' H1' Hs'') as [n' Hres2].
  simpl in Hres2. fold out1. rewrite Hres2. clear Hres2.
  rewrite Hhn', Hha'.
  rewrite (west_cols_of_none (keep_by p hn hn) west_prefix) by apply keep_by_self_Forall.
  rewrite drop_columns_nil.
  rewrite cleared_id; [eexists; split; reflexivity|].
  intros r row' j' HrE' Hrow' Hj' Hlen'.
  apply elem_of_rows_to_edit_of in HrE' as (Hge & row'' & Hrow'' & Hne).
  rewrite Hrow' in Hrow''. injection Hrow'' as <-.
  rewrite Hout1 in Hrow'.
  destruct (sheet order !! r) as [row|] eqn:Hrow; simplify_eq/=.
  pose proof (Forall_lookup_1 _ _ _ _ Hrect Hrow) as Hlen. simpl in Hlen.
  destruct (decide (r ∈ E)) as [HrE|HrE].
  - rewrite keep_by_lookup in * by (by rewrite length_clear_row).
    destruct (kept_index p hn j') as [j|] eqn:Hj.
    2:{ apply lookup_lt_is_Some_2 in Hlen'. rewrite keep_by_lookup, Hj in Hlen'
          by (by rewrite length_clear_row). by destruct Hlen'. }
    simpl. rewrite clear_row_lookup.
    destruct (row !! j) as [v|] eqn:Hv.
    2:{ apply lookup_lt_is_Some_2 in Hlen'. rewrite keep_by_lookup, Hj in Hlen'
          by (by rewrite length_clear_row). simpl in Hlen'.
        rewrite clear_row_lookup, Hv in Hlen'. by destruct Hlen'. }
    simpl. rewrite decide_True; [done|].
    apply elem_of_elements. apply elem_of_elements in Hj'.
    apply elem_of_columns_to_clear_of. apply elem_of_columns_to_clear_of in Hj'.
    rewrite shop_cols_map_of_lookup in *.
    rewrite !keep_by_lookup, Hj in Hj' by done. exact Hj'.
  - exfalso. apply Hne.
    rewrite keep_by_lookup, Hidx by done. simpl.
    destruct (decide (Py.strip (text_of astype_na (default NaN (row !! s)))
                      = protected_supplier)) as [Heq|Hneq]; [done|].
    exfalso. apply HrE. apply elem_of_rows_to_edit_of. split; [done|]. by exists row.
Qed.

(** ** The theorems at a sample sheet *)

Lemma order_three_columns_run :
  transform_order astype_na_text order_three_columns ∅ {[py "shop"]}
                  default_protected_supplier default_west_prefix
  = inr (order_three_columns_out, order_three_columns_summary).
Proof. vm_compute. reflexivity. Qed.

Lemma order_three_columns_rectangular : rectangular 3 (sheet order_three_columns).
Proof. repeat constructor. Qed.

Lemma C10_counterexample :
  transform_order astype_na_text order_three_columns ∅ {[py "shop"]}
                  default_protected_supplier supplier_label_first_word
  = inr (order_without_supplier,
         {| summary_sheet_name := py "TDSheet";
            columns_to_clear_count := 1;
            west_columns_dropped := 1;
            rows_eligible_by_supplier_rule := 1;
            cleared_cells_estimate := 1;
            summary_protected_supplier := default_protected_supplier |})
  ∧ transform_order astype_na_text order_without_supplier ∅ {[py "shop"]}
                    default_protected_supplier supplier_label_first_word
    = inl RuntimeError.
Proof. split; vm_compute; reflexivity. Qed.

Lemma C10_witness :
  ∃ sm',
    transform_order astype_na_text order_three_columns_out ∅ {[py "shop"]}
                    default_protected_supplier default_west_prefix
    = inr (order_three_columns_out, sm')
    ∧ west_columns_dropped sm' = 0.
Proof.
  apply (C10_second_run_keeps_sheet astype_na_text order_three_columns
           order_three_columns_out ∅ {[py "shop"]} default_protected_supplier
           default_west_prefix order_three_columns_summary 3).
  - repeat constructor.
  - vm_compute. reflexivity.
  - vm_compute. reflexivity.
Defined.

Lemma C1_witness :
  ∃ wb sm,
    transform_order astype_na_text order_three_columns ∅ {[py "shop"]}
                    default_protected_supplier default_west_prefix
    = inr (wb, sm)
    ∧ sheet wb !! 4
      = Some (drop_labels
                (west_cols_of (as_text astype_na_text
                                 [Str supplier_label; Str (py "shop");
                                  Str default_west_prefix])
                              default_west_prefix)
                0 [Str default_protected_supplier; Other (py "7"); Other (py "2")]).
Proof.
  apply (C1_protected_rows_untouched astype_na_text order_three_columns ∅ {[py "shop"]}
           default_protected_supplier default_west_prefix
           [Str supplier_label; Str (py "shop"); Str default_west_prefix]
           [Str default_protected_supplier; Other (py "7"); Other (py "2")]
           0 4 (Str default_protected_supplier)).
  - reflexivity.
  - vm_compute. reflexivity.
  - lia.
  - reflexivity.
  - reflexivity.
  - vm_compute. reflexivity.
Defined.

Lemma C5_witness :
  ∃ row0 row1 col_supplier,
    sheet order_three_columns !! 0 = Some row0
    ∧ sheet order_three_columns !! 1 = Some row1
    ∧ find_col (as_text astype_na_text row0) supplier_label = Some col_supplier
    ∧ rectangular (3 - length (west_cols_of (as_text astype_na_text row0)
                                           default_west_prefix))
                  (sheet order_three_columns_out).
Proof.
  destruct (C5_west_columns_removed astype_na_text order_three_columns
              order_three_columns_out ∅ {[py "shop"]} default_protected_supplier
              default_west_prefix order_three_columns_summary 3)
    as (row0 & row1 & s & H0 & H1 & Hs & _ & _ & _ & _ & Hrect & _).
  - repeat constructor.
  - vm_compute. reflexivity.
  - by exists row0, row1, s.
Defined.

Lemma C6_witness :
  ∃ row0,
    sheet order_three_columns !! 0 = Some row0
    ∧ length (sheet order_three_columns_out) = length (sheet order_three_columns)
    ∧ ∃ row' out_row,
        sheet order_three_columns_out !! 0 = Some out_row
        ∧ Some <$> out_row
          = (λ j, row' !! j)
              <$> filter (λ j, j ∉ west_cols_of (as_text astype_na_text row0)
                                                default_west_prefix)
                         (seq 0 (length row'))
        ∧ row' = [Str supplier_label; Str (py "shop"); Str default_west_prefix].
Proof.
  destruct (C6_header_rows_and_row_count astype_na_text order_three_columns
              order_three_columns_out ∅ {[py "shop"]} default_protected_supplier
              default_west_prefix order_three_columns_summary)
    as (row0 & H0 & Hlen & _ & Hrows).
  - vm_compute. reflexivity.
  - destruct (Hrows 0 [Str supplier_label; Str (py "shop"); Str default_west_prefix]
                eq_refl) as (row' & out_row & Hout & _ & Hcells & _ & _ & Hsame & _).
    exists row0. split; [done|]. split; [done|].
    exists row', out_row. split; [done|]. split; [done|]. apply Hsame. lia.
Defined.

Lemma C8_witness :
  ∃ col_supplier v,
    [Str supplier_label; Str (py "shop"); Str default_west_prefix] !! col_supplier
    = Some v
    ∧ Py.strip (text_of astype_na_text v) = supplier_label.
Proof.
  destruct (C8_supplier_column_or_failure astype_na_text order_three_columns ∅
              {[py "shop"]} default_protected_supplier default_west_prefix
              [Str supplier_label; Str (py "shop"); Str default_west_prefix]
              [NaN; Str (py "#037# and also #099#"); NaN])
    as (_ & _ & Hsucc).
  - reflexivity.
  - reflexivity.
  - destruct (Hsucc order_three_columns_out order_three_columns_summary)
      as (s & v & Hv & Ht & _).
    + vm_compute. reflexivity.
    + by exists s, v.
Defined.

(** * Further properties of the code *)

(** ** The counter of the clearing loop *)

Lemma loc_loc_set_ne (out : list (list cell)) (rows rows' : list nat) (c c' : nat)
    (value : cell) :
  c ≠ c' → loc (loc_set out rows c value) rows' c' = loc out rows' c'.
Proof.
  intros Hne. unfold loc, loc_set. apply list_fmap_ext. intros _ r _.
  rewrite list_lookup_imap. destruct (out !! r) as [row|]; simpl; [|done].
  case_decide; [|done]. by rewrite list_lookup_insert_ne.
Qed.

Lemma sum_list_with_ext_in {A : Type} (f g : A → nat) (l : list A) :
  (∀ x, x ∈ l → f x = g x) → sum_list_with f l = sum_list_with g l.
Proof.
  induction l as [|x l IH]; intros H; simpl; [done|].
  rewrite (H x) by left. f_equal. apply IH. intros y Hy. apply H. by right.
Qed.

Lemma foldl_clear_step_count (rows cs : list nat) (out : list (list cell)) (n : nat) :
  NoDup cs →
  (foldl (clear_step rows) (out, n) cs).2
  = n + sum_list_with (λ c, length (filter (λ v, notna v = true) (loc out rows c))) cs.
Proof.
  intros Hnd. revert out n. induction Hnd as [|c cs Hc Hnd IH]; intros out n; simpl.
  - lia.
  - rewrite IH. rewrite <- Nat.add_assoc. f_equal. f_equal.
    apply sum_list_with_ext_in. intros c' Hc'. rewrite loc_loc_set_ne; [done|].
    intros ->. done.
Qed.

Lemma sum_list_with_le {A : Type} (f : A → nat) (l : list A) (b : nat) :
  (∀ x, f x ≤ b) → sum_list_with f l ≤ length l * b.
Proof.
  intros H. induction l as [|x l IH]; simpl; [done|]. specialize (H x). lia.
Qed.

(** The whole result of a successful run, counter included. *)
Lemma transform_order_result (astype_na : cell) (order : Workbook)
    (codes nicks : gset pystr) (protected_supplier west_prefix : pystr)
    (row0 row1 : list cell) (col_supplier : nat) :
  sheet order !! 0 = Some row0 →
  sheet order !! 1 = Some row1 →
  find_col (as_text astype_na row0) supplier_label = Some col_supplier →
  let columns_to_clear :=
    columns_to_clear_of (as_text astype_na row0) (as_text astype_na row1) codes nicks in
  let west_cols := west_cols_of (as_text astype_na row0) west_prefix in
  let rows_to_edit :=
    rows_to_edit_of astype_na (sheet order) col_supplier protected_supplier in
  transform_order astype_na order codes nicks protected_supplier west_prefix
  = inr ({| sheet_name := sheet_name order;
            sheet := drop_columns west_cols
                       (cleared rows_to_edit (elements columns_to_clear) (sheet order)) |},
         {| summary_sheet_name := sheet_name order;
            columns_to_clear_count := size columns_to_clear;
            west_columns_dropped := length west_cols;
            rows_eligible_by_supplier_rule := length rows_to_edit;
            cleared_cells_estimate :=
              sum_list_with
                (λ c, length (filter (λ v, notna v = true)
                                     (loc (sheet order) rows_to_edit c)))
                (elements columns_to_clear);
            summary_protected_supplier := protected_supplier |}).
Proof.
  intros H0 H1 Hs. simpl. unfold transform_order. rewrite H0, H1, Hs.
  destruct (foldl _ _ _) as [out n] eqn:Hloop.
  assert (out = (foldl (clear_step (rows_to_edit_of astype_na (sheet order) col_supplier
                                                    protected_supplier))
                       (sheet order, 0)
                       (elements (columns_to_clear_of (as_text astype_na row0)
                                    (as_text astype_na row1) codes nicks))).1) as Hout
    by (by rewrite Hloop).
  assert (n = (foldl (clear_step (rows_to_edit_of astype_na (sheet order) col_supplier
                                                  protected_supplier))
                     (sheet order, 0)
                     (elements (columns_to_clear_of (as_text astype_na row0)
                                  (as_text astype_na row1) codes nicks))).2) as Hn
    by (by rewrite Hloop).
  rewrite foldl_clear_step in Hout.
  rewrite foldl_clear_step_count in Hn by apply NoDup_elements. simpl in Hn.
  subst out n. f_equal. f_equal. f_equal.
  destruct (west_cols_of _ _) eqn:Hw; [|done]. by rewrite drop_columns_nil.
Qed.

(** ** Eligible rows *)

Lemma length_filter_enumerate_from {A : Type} (P : A → Prop) `{!∀ x, Decision (P x)}
    (l : list A) (start : nat) :
  length (filter (λ ix : nat * A, P ix.2) (enumerate_from start l))
  = length (filter P l).
Proof.
  revert start. induction l as [|x l IH]; intros start; simpl; [done|].
  rewrite !filter_cons. simpl. case_decide; simpl; by rewrite IH.
Qed.

Lemma length_filter_fmap {A B : Type} (f : A → B) (P : B → Prop)
    `{!∀ x, Decision (P x)} (l : list A) :
  length (filter P (f <$> l)) = length (filter (λ x, P (f x)) l).
Proof.
  induction l as [|x l IH]; [done|].
  rewrite fmap_cons, !filter_cons. case_decide; cbn [length]; by rewrite IH.
Qed.

Lemma length_filter_split {A : Type} (P Q : A → Prop) `{!∀ x, Decision (P x)}
    `{!∀ x, Decision (Q x)} (l : list A) :
  (∀ x, P x ↔ ¬ Q x) →
  length (filter P l) + length (filter Q l) = length l.
Proof.
  intros HPQ. induction l as [|x l IH]; simpl; [done|].
  rewrite !filter_cons. specialize (HPQ x).
  destruct (decide (P x)), (decide (Q x)); simpl; try lia; exfalso; tauto.
Qed.

Lemma length_rows_to_edit_of (astype_na : cell) (out : list (list cell))
    (col_supplier : nat) (protected_supplier : pystr) :
  length (rows_to_edit_of astype_na out col_supplier protected_supplier)
  = length (filter (λ row, Py.strip (text_of astype_na (default NaN (row !! col_supplier)))
                           ≠ protected_supplier)
                   (drop data_start out)).
Proof.
  unfold rows_to_edit_of, suppliers_of, iloc_from.
  rewrite as_text_fmap, zip_enumerate_from, length_fmap.
  etrans; [exact (length_filter_enumerate_from
                    (λ v, Py.strip (str v) ≠ protected_supplier) _ _)|].
  rewrite <- list_fmap_compose.
  exact (length_filter_fmap _ (λ v, Py.strip (str v) ≠ protected_supplier) _).
Qed.

(** ** Stripping twice *)

Lemma lstrip_idem (s : pystr) : Py.lstrip (Py.lstrip s) = Py.lstrip s.
Proof.
  induction s as [|c s IH]; simpl; [done|].
  destruct (Py.isspace c) eqn:Hc; [done|]. simpl. by rewrite Hc.
Qed.

Lemma lstrip_cases (s : pystr) :
  Py.lstrip s = [] ∨ ∃ c u, Py.lstrip s = c :: u ∧ Py.isspace c = false.
Proof.
  induction s as [|c s IH]; simpl; [by left|].
  destruct (Py.isspace c) eqn:Hc; [done|]. right. by exists c, s.
Qed.

Lemma lstrip_app_nonspace (l : pystr) (c : N) :
  Py.isspace c = false → Py.lstrip (l ++ [c]) = Py.lstrip l ++ [c].
Proof.
  intros Hc. induction l as [|a l IH]; simpl; [by rewrite Hc|].
  by destruct (Py.isspace a).
Qed.

Lemma rstrip_cons_nonspace (c : N) (u : pystr) :
  Py.isspace c = false → Py.rstrip (c :: u) = c :: Py.rstrip u.
Proof.
  intros Hc. unfold Py.rstrip.
  by rewrite reverse_cons, lstrip_app_nonspace, reverse_app, reverse_singleton.
Qed.

Lemma rstrip_idem (s : pystr) : Py.rstrip (Py.rstrip s) = Py.rstrip s.
Proof. unfold Py.rstrip. by rewrite reverse_involutive, lstrip_idem. Qed.

Lemma strip_idem (s : pystr) : Py.strip (Py.strip s) = Py.strip s.
Proof.
  unfold Py.strip. destruct (lstrip_cases s) as [->|(c & u & -> & Hc)]; [done|].
  rewrite rstrip_cons_nonspace by done. simpl. rewrite Hc.
  rewrite rstrip_cons_nonspace by done. by rewrite rstrip_idem.
Qed.

(** ** What a run does to the rows it may edit *)

(** A row at index 3 or later whose supplier text is not the protected one comes
    out with the empty text in every column of the clear-set and its own cells
    elsewhere, less the cells of the West columns. *)
Theorem eligible_row_cleared (astype_na : cell) (order : Workbook)
    (shop_codes nicknames : gset pystr) (protected_supplier west_prefix : pystr)
    (row0 row1 row : list cell) (col_supplier r : nat) :
  sheet order !! 0 = Some row0 →
  sheet order !! 1 = Some row1 →
  find_col (as_text astype_na row0) supplier_label = Some col_supplier →
  3 ≤ r →
  sheet order !! r = Some row →
  Py.strip (text_of astype_na (default NaN (row !! col_supplier))) ≠ protected_supplier →
  ∃ wb sm row',
    transform_order astype_na order shop_codes nicknames protected_supplier west_prefix
    = inr (wb, sm)
    ∧ sheet wb !! r
      = Some (drop_labels (west_cols_of (as_text astype_na row0) west_prefix) 0 row')
    ∧ length row' = length row
    ∧ ∀ j v, row !! j = Some v →
             row' !! j
             = Some (if decide (j ∈ columns_to_clear_of (as_text astype_na row0)
                                      (as_text astype_na row1) shop_codes nicknames)
                     then Str [] else v).
Proof.
  intros H0 H1 Hs Hr Hrow Hne.
  pose proof (transform_order_result astype_na order shop_codes nicknames
                protected_supplier west_prefix row0 row1 col_supplier H0 H1 Hs) as Hres.
  simpl in Hres. eexists _, _, _. split; [exact Hres|]. simpl.
  rewrite drop_columns_lookup, cleared_lookup, Hrow. simpl.
  rewrite decide_True.
  2:{ apply elem_of_rows_to_edit_of. split; [done|]. by exists row. }
  split; [done|]. split; [apply length_clear_row|].
  intros j v Hv. rewrite clear_row_lookup, Hv. simpl. f_equal.
  destruct (decide (j ∈ elements _)) as [Hin|Hin];
    destruct (decide (j ∈ columns_to_clear_of _ _ _ _)) as [Hin'|Hin']; try done;
    exfalso; [apply Hin'; by apply elem_of_elements|apply Hin; by apply elem_of_elements].
Qed.

Lemma eligible_row_cleared_witness :
  ∃ wb sm row',
    transform_order astype_na_text order_three_columns ∅ {[py "shop"]}
                    default_protected_supplier default_west_prefix
    = inr (wb, sm)
    ∧ sheet wb !! 3
      = Some (drop_labels
                (west_cols_of (as_text astype_na_text
                                 [Str supplier_label; Str (py "shop");
                                  Str default_west_prefix])
                              default_west_prefix) 0 row')
    ∧ length row' = 3.
Proof.
  destruct (eligible_row_cleared astype_na_text order_three_columns ∅ {[py "shop"]}
              default_protected_supplier default_west_prefix
              [Str supplier_label; Str (py "shop"); Str default_west_prefix]
              [NaN; Str (py "#037# and also #099#"); NaN]
              [Str (py "other"); Other (py "5"); Other (py "9")] 0 3)
    as (wb & sm & row' & Hres & Hrow & Hlen & _).
  - reflexivity.
  - reflexivity.
  - vm_compute. reflexivity.
  - lia.
  - reflexivity.
  - vm_compute. discriminate.
  - by exists wb, sm, row'.
Defined.

(** When the summary of a run counts no column to clear and no West column, the
    workbook comes back as it went in. *)
Theorem nothing_selected_returns_order (astype_na : cell) (order wb : Workbook)
    (shop_codes nicknames : gset pystr) (protected_supplier west_prefix : pystr)
    (sm : Summary) :
  transform_order astype_na order shop_codes nicknames protected_supplier west_prefix
  = inr (wb, sm) →
  columns_to_clear_count sm = 0 →
  west_columns_dropped sm = 0 →
  wb = order.
Proof.
  intros Hres.
  destruct (transform_order_inr _ _ _ _ _ _ _ Hres) as (row0 & row1 & s & H0 & H1 & Hs).
  pose proof (transform_order_result astype_na order shop_codes nicknames
                protected_supplier west_prefix row0 row1 s H0 H1 Hs) as Hres'.
  simpl in Hres'. rewrite Hres' in Hres. injection Hres as <- <-. simpl.
  intros Hc Hw. apply size_empty_inv in Hc. apply leibniz_equiv in Hc.
  apply nil_length_inv in Hw. rewrite Hc, Hw, elements_empty, cleared_nil, drop_columns_nil.
  by destruct order.
Qed.

Lemma nothing_selected_returns_order_witness :
  order_three_columns_out = order_three_columns_out.
Proof.
  apply (nothing_selected_returns_order astype_na_text order_three_columns_out
           order_three_columns_out ∅ {[py "none"]} default_protected_supplier
           default_west_prefix
           {| summary_sheet_name := py "TDSheet";
              columns_to_clear_count := 0;
              west_columns_dropped := 0;
              rows_eligible_by_supplier_rule := 1;
              cleared_cells_estimate := 0;
              summary_protected_supplier := default_protected_supplier |}).
  - vm_compute. reflexivity.
  - reflexivity.
  - reflexivity.
Defined.

(** A sheet with fewer than two rows stops the run with an index error, before
    the supplier column is looked for, and no other sheet does. *)
Theorem index_error_iff_short_sheet (astype_na : cell) (order : Workbook)
    (shop_codes nicknames : gset pystr) (protected_supplier west_prefix : pystr) :
  transform_order astype_na order shop_codes nicknames protected_supplier west_prefix
  = inl IndexError
  ↔ length (sheet order) < 2.
Proof.
  unfold transform_order.
  destruct (sheet order !! 0) as [row0|] eqn:H0.
  - destruct (sheet order !! 1) as [row1|] eqn:H1.
    + apply lookup_lt_Some in H1.
      destruct (find_col _ _); [destruct (foldl _ _ _)|]; split; (done || lia).
    + apply lookup_ge_None in H1. split; [lia|done].
  - apply lookup_ge_None in H0. split; [lia|done].
Qed.

(** ** The West prefix and the counts of the summary *)

Lemma startswith_nil (s : pystr) : Py.startswith s [] = true.
Proof. by destruct s. Qed.

Lemma keep_by_none {A B : Type} (p : A → bool) (ks : list A) (l : list B) :
  (∀ k, p k = false) → keep_by p ks l = [].
Proof.
  intros Hp. revert l. induction ks as [|k ks IH]; intros [|x l]; simpl; try done.
  by rewrite Hp.
Qed.

(** With an empty West prefix every label starts with the prefix: a rectangular
    sheet comes out with all its rows and no cell in any of them, and the summary
    counts every column as dropped. *)
Theorem empty_west_prefix_drops_every_column (astype_na : cell) (order wb : Workbook)
    (shop_codes nicknames : gset pystr) (protected_supplier : pystr)
    (sm : Summary) (ncols : nat) :
  rectangular ncols (sheet order) →
  transform_order astype_na order shop_codes nicknames protected_supplier [] = inr (wb, sm) →
  sheet wb = replicate (length (sheet order)) []
  ∧ west_columns_dropped sm = ncols.
Proof.
  intros Hrect Hres.
  destruct (transform_order_inr _ _ _ _ _ _ _ Hres) as (row0 & row1 & s & H0 & H1 & Hs).
  pose proof (transform_order_result astype_na order shop_codes nicknames
                protected_supplier [] row0 row1 s H0 H1 Hs) as Hres'.
  simpl in Hres'. rewrite Hres' in Hres. injection Hres as <- <-. simpl.
  assert (length (as_text astype_na row0) = ncols) as Hlen0.
  { rewrite length_as_text. apply (Forall_lookup_1 _ _ _ _ Hrect H0). }
  assert (∀ v, negb (is_west [] v) = false) as Hall.
  { intros v. unfold is_west. by rewrite startswith_nil. }
  split.
  - apply list_eq; intros r. rewrite drop_columns_lookup, cleared_lookup.
    destruct (sheet order !! r) as [row|] eqn:Hrow; simpl.
    + rewrite lookup_replicate_2 by (by apply lookup_lt_Some in Hrow). f_equal.
      rewrite drop_labels_west.
      * by apply keep_by_none.
      * rewrite Hlen0. pose proof (Forall_lookup_1 _ _ _ _ Hrect Hrow) as Hlen.
        simpl in Hlen. case_decide; [by rewrite length_clear_row|done].
    + symmetry. apply lookup_replicate_None. by apply lookup_ge_None in Hrow.
  - pose proof (length_keep_by_west_from [] (as_text astype_na row0)
                  (as_text astype_na row0) 0 eq_refl) as Hsum.
    rewrite (keep_by_none _ _ _ Hall) in Hsum. simpl in Hsum.
    unfold west_cols_of, enumerate. by rewrite Hsum.
Qed.

Lemma empty_west_prefix_drops_every_column_witness :
  sheet {| sheet_name := py "TDSheet"; sheet := [ []; []; []; []; [] ] |}
  = replicate (length (sheet order_three_columns)) []
  ∧ 3 = 3.
Proof.
  apply (empty_west_prefix_drops_every_column astype_na_text order_three_columns
           {| sheet_name := py "TDSheet"; sheet := [ []; []; []; []; [] ] |}
           ∅ {[py "shop"]} default_protected_supplier
           {| summary_sheet_name := py "TDSheet";
              columns_to_clear_count := 1;
              west_columns_dropped := 3;
              rows_eligible_by_supplier_rule := 1;
              cleared_cells_estimate := 1;
              summary_protected_supplier := default_protected_supplier |} 3).
  - repeat constructor.
  - vm_compute. reflexivity.
Defined.

(** The rows the summary counts as eligible and the rows whose supplier text is
    the protected one are together the rows from index 3 on. *)
Theorem eligible_and_protected_rows (astype_na : cell) (order wb : Workbook)
    (shop_codes nicknames : gset pystr) (protected_supplier west_prefix : pystr)
    (sm : Summary) :
  transform_order astype_na order shop_codes nicknames protected_supplier west_prefix
  = inr (wb, sm) →
  ∃ row0 col_supplier,
    sheet order !! 0 = Some row0
    ∧ find_col (as_text astype_na row0) supplier_label = Some col_supplier
    ∧ rows_eligible_by_supplier_rule sm
      + length (filter (λ row, Py.strip (text_of astype_na
                                           (default NaN (row !! col_supplier)))
                               = protected_supplier)
                       (drop 3 (sheet order)))
      = length (sheet order) - 3.
Proof.
  intros Hres.
  destruct (transform_order_inr _ _ _ _ _ _ _ Hres) as (row0 & row1 & s & H0 & H1 & Hs).
  pose proof (transform_order_result astype_na order shop_codes nicknames
                protected_supplier west_prefix row0 row1 s H0 H1 Hs) as Hres'.
  simpl in Hres'. rewrite Hres' in Hres. injection Hres as <- <-. simpl.
  exists row0, s. split; [done|]. split; [done|].
  rewrite length_rows_to_edit_of. unfold data_start.
  rewrite <- (length_drop (sheet order) 3).
  apply length_filter_split. intros row. split; [tauto|].
  intros H. by destruct (decide (Py.strip (text_of astype_na (default NaN (row !! s)))
                                 = protected_supplier)).
Qed.

Lemma eligible_and_protected_rows_witness :
  ∃ row0 col_supplier,
    sheet order_three_columns !! 0 = Some row0
    ∧ find_col (as_text astype_na_text row0) supplier_label = Some col_supplier.
Proof.
  destruct (eligible_and_protected_rows astype_na_text order_three_columns
              order_three_columns_out ∅ {[py "shop"]} default_protected_supplier
              default_west_prefix order_three_columns_summary)
    as (row0 & s & H0 & Hs & _).
  - vm_compute. reflexivity.
  - by exists row0, s.
Defined.

(** The estimate of cleared cells is read on the sheet as it came in: for every
    column of the clear-set, the cells of the eligible rows that are not missing.
    It is at most the product of the two counts beside it, and it does not look
    at the West prefix, so the cells of a West column of the clear-set are counted
    although the column is dropped. *)
Theorem cleared_cells_estimate_counts_input (astype_na : cell) (order wb : Workbook)
    (shop_codes nicknames : gset pystr) (protected_supplier west_prefix : pystr)
    (sm : Summary) :
  transform_order astype_na order shop_codes nicknames protected_supplier west_prefix
  = inr (wb, sm) →
  ∃ row0 row1 col_supplier,
    sheet order !! 0 = Some row0
    ∧ sheet order !! 1 = Some row1
    ∧ find_col (as_text astype_na row0) supplier_label = Some col_supplier
    ∧ cleared_cells_estimate sm
      = sum_list_with
          (λ c, length (filter (λ v, notna v = true)
                               (loc (sheet order)
                                    (rows_to_edit_of astype_na (sheet order) col_supplier
                                                     protected_supplier) c)))
          (elements (columns_to_clear_of (as_text astype_na row0)
                       (as_text astype_na row1) shop_codes nicknames))
    ∧ cleared_cells_estimate sm
      ≤ columns_to_clear_count sm * rows_eligible_by_supplier_rule sm
    ∧ ∀ west_prefix' wb' sm',
        transform_order astype_na order shop_codes nicknames protected_supplier
                        west_prefix' = inr (wb', sm') →
        cleared_cells_estimate sm' = cleared_cells_estimate sm.
Proof.
  intros Hres.
  destruct (transform_order_inr _ _ _ _ _ _ _ Hres) as (row0 & row1 & s & H0 & H1 & Hs).
  pose proof (transform_order_result astype_na order shop_codes nicknames
                protected_supplier west_prefix row0 row1 s H0 H1 Hs) as Hres'.
  simpl in Hres'. rewrite Hres' in Hres. injection Hres as <- <-. simpl.
  exists row0, row1, s. do 3 (split; [done|]). split; [done|]. split.
  - apply (sum_list_with_le _ (elements _)). intros c.
    etrans; [apply length_filter|]. unfold loc. by rewrite length_fmap.
  - intros wp' wb' sm' Hres2.
    pose proof (transform_order_result astype_na order shop_codes nicknames
                  protected_supplier wp' row0 row1 s H0 H1 Hs) as Hres2'.
    simpl in Hres2'. rewrite Hres2' in Hres2. by injection Hres2 as <- <-.
Qed.

Lemma cleared_cells_estimate_counts_input_witness :
  ∃ row0 row1 col_supplier,
    sheet order_three_columns !! 0 = Some row0
    ∧ sheet order_three_columns !! 1 = Some row1
    ∧ find_col (as_text astype_na_text row0) supplier_label = Some col_supplier
    ∧ cleared_cells_estimate order_three_columns_summary
      ≤ columns_to_clear_count order_three_columns_summary
        * rows_eligible_by_supplier_rule order_three_columns_summary.
Proof.
  destruct (cleared_cells_estimate_counts_input astype_na_text order_three_columns
              order_three_columns_out ∅ {[py "shop"]} default_protected_supplier
              default_west_prefix order_three_columns_summary)
    as (row0 & row1 & s & H0 & H1 & Hs & _ & Hle & _).
  - vm_compute. reflexivity.
  - by exists row0, row1, s.
Defined.

Lemma columns_to_clear_of_lt (hn ha : list cell) (codes nicks : gset pystr) (j : nat) :
  length ha = length hn →
  j ∈ columns_to_clear_of hn ha codes nicks → j < length hn.
Proof.
  intros Hlen [(code & Hc & _)|(v & Hv & _)]%elem_of_columns_to_clear_of.
  - rewrite shop_cols_map_of_lookup in Hc. rewrite <- Hlen.
    destruct (ha !! j) as [w|] eqn:Hw; [|done]. by apply lookup_lt_Some in Hw.
  - by apply lookup_lt_Some in Hv.
Qed.

(** Every column the run selects or drops is a column of the sheet, so neither
    count of the summary exceeds the number of columns, and the eligible rows are
    at most the rows from index 3 on. *)
Theorem summary_counts_within_sheet (astype_na : cell) (order wb : Workbook)
    (shop_codes nicknames : gset pystr) (protected_supplier west_prefix : pystr)
    (sm : Summary) (ncols : nat) :
  rectangular ncols (sheet order) →
  transform_order astype_na order shop_codes nicknames protected_supplier west_prefix
  = inr (wb, sm) →
  columns_to_clear_count sm ≤ ncols
  ∧ west_columns_dropped sm ≤ ncols
  ∧ rows_eligible_by_supplier_rule sm ≤ length (sheet order) - 3.
Proof.
  intros Hrect Hres.
  destruct (transform_order_inr _ _ _ _ _ _ _ Hres) as (row0 & row1 & s & H0 & H1 & Hs).
  pose proof (transform_order_result astype_na order shop_codes nicknames
                protected_supplier west_prefix row0 row1 s H0 H1 Hs) as Hres'.
  simpl in Hres'. rewrite Hres' in Hres. injection Hres as <- <-. simpl.
  assert (length (as_text astype_na row0) = ncols) as Hlen0.
  { rewrite length_as_text. apply (Forall_lookup_1 _ _ _ _ Hrect H0). }
  assert (length (as_text astype_na row1) = length (as_text astype_na row0)) as Hlen1.
  { rewrite Hlen0, length_as_text. apply (Forall_lookup_1 _ _ _ _ Hrect H1). }
  split; [|split].
  - rewrite <- (size_set_seq (C := gset nat) 0 ncols). apply subseteq_size.
    intros j Hj. apply elem_of_set_seq. split; [lia|].
    rewrite <- Hlen0. simpl. by eapply columns_to_clear_of_lt.
  - pose proof (length_keep_by_west_from west_prefix (as_text astype_na row0)
                  (as_text astype_na row0) 0 eq_refl) as Hsum.
    unfold west_cols_of, enumerate. lia.
  - rewrite length_rows_to_edit_of. unfold data_start.
    rewrite <- (length_drop (sheet order) 3). apply length_filter.
Qed.

Lemma summary_counts_within_sheet_witness :
  columns_to_clear_count order_three_columns_summary ≤ 3
  ∧ west_columns_dropped order_three_columns_summary ≤ 3
  ∧ rows_eligible_by_supplier_rule order_three_columns_summary
    ≤ length (sheet order_three_columns) - 3.
Proof.
  apply (summary_counts_within_sheet astype_na_text order_three_columns
           order_three_columns_out ∅ {[py "shop"]} default_protected_supplier
           default_west_prefix order_three_columns_summary 3).
  - repeat constructor.
  - vm_compute. reflexivity.
Defined.

(** A longer removal list selects at least the same columns. *)
Theorem clear_set_grows_with_lookup_sets (hdr_nickname hdr_address : list cell)
    (shop_codes shop_codes' nicknames nicknames' : gset pystr) :
  shop_codes ⊆ shop_codes' →
  nicknames ⊆ nicknames' →
  columns_to_clear_of hdr_nickname hdr_address shop_codes nicknames
  ⊆ columns_to_clear_of hdr_nickname hdr_address shop_codes' nicknames'.
Proof.
  intros Hc Hn j. rewrite !elem_of_columns_to_clear_of.
  intros [(code & Hcode & Hin)|(v & Hv & Hin)].
  - left. exists code. split; [done|]. by apply Hc.
  - right. exists v. split; [done|]. by apply Hn.
Qed.

Lemma clear_set_grows_with_lookup_sets_witness :
  columns_to_clear_of [Str supplier_label; Str (py "shop")] [Str []; Str []]
                      ∅ {[py "shop"]}
  ⊆ columns_to_clear_of [Str supplier_label; Str (py "shop")] [Str []; Str []]
                        {[py "037"]} ({[py "shop"]} ∪ {[py "other"]}).
Proof.
  apply (clear_set_grows_with_lookup_sets
           [Str supplier_label; Str (py "shop")] [Str []; Str []]
           ∅ {[py "037"]} {[py "shop"]} ({[py "shop"]} ∪ {[py "other"]})).
  - apply empty_subseteq.
  - apply union_subseteq_l.
Defined.

Lemma cleared_no_rows (cs : list nat) (out : list (list cell)) : cleared [] cs out = out.
Proof.
  apply list_eq; intros r. rewrite cleared_lookup.
  destruct (out !! r) as [row|]; simpl; [|done].
  destruct (decide (r ∈ [])) as [Hin|_]; [by apply not_elem_of_nil in Hin|done].
Qed.

(** A sheet of at most three rows has no row to edit: it comes out without its
    West columns and nothing else changes, and the summary counts no eligible row
    and no cleared cell. *)
Theorem header_only_sheet (astype_na : cell) (order wb : Workbook)
    (shop_codes nicknames : gset pystr) (protected_supplier west_prefix : pystr)
    (sm : Summary) :
  length (sheet order) ≤ 3 →
  transform_order astype_na order shop_codes nicknames protected_supplier west_prefix
  = inr (wb, sm) →
  ∃ row0,
    sheet order !! 0 = Some row0
    ∧ sheet wb
      = drop_columns (west_cols_of (as_text astype_na row0) west_prefix) (sheet order)
    ∧ rows_eligible_by_supplier_rule sm = 0
    ∧ cleared_cells_estimate sm = 0.
Proof.
  intros Hshort Hres.
  destruct (transform_order_inr _ _ _ _ _ _ _ Hres) as (row0 & row1 & s & H0 & H1 & Hs).
  pose proof (transform_order_result astype_na order shop_codes nicknames
                protected_supplier west_prefix row0 row1 s H0 H1 Hs) as Hres'.
  simpl in Hres'. rewrite Hres' in Hres. injection Hres as <- <-. simpl.
  assert (rows_to_edit_of astype_na (sheet order) s protected_supplier = []) as ->.
  { apply nil_length_inv. rewrite length_rows_to_edit_of.
    unfold data_start. by rewrite drop_ge. }
  exists row0. split; [done|]. split; [by rewrite cleared_no_rows|]. split; [done|].
  generalize (elements (columns_to_clear_of (as_text astype_na row0)
                          (as_text astype_na row1) shop_codes nicknames)).
  intros cs. by induction cs.
Qed.

Lemma header_only_sheet_witness :
  ∃ row0,
    take 3 (sheet order_three_columns) !! 0 = Some row0
    ∧ rows_eligible_by_supplier_rule
        {| summary_sheet_name := py "TDSheet";
           columns_to_clear_count := 1;
           west_columns_dropped := 1;
           rows_eligible_by_supplier_rule := 0;
           cleared_cells_estimate := 0;
           summary_protected_supplier := default_protected_supplier |} = 0.
Proof.
  destruct (header_only_sheet astype_na_text
              {| sheet_name := py "TDSheet"; sheet := take 3 (sheet order_three_columns) |}
              {| sheet_name := py "TDSheet";
                 sheet := take 3 (sheet order_three_columns_out) |}
              ∅ {[py "shop"]} default_protected_supplier default_west_prefix
              {| summary_sheet_name := py "TDSheet";
                 columns_to_clear_count := 1;
                 west_columns_dropped := 1;
                 rows_eligible_by_supplier_rule := 0;
                 cleared_cells_estimate := 0;
                 summary_protected_supplier := default_protected_supplier |})
    as (row0 & H0 & _ & Hel & _).
  - simpl. lia.
  - vm_compute. reflexivity.
  - by exists row0.
Defined.

(** The protected supplier is compared with stripped text and is not stripped
    itself: a protected supplier with a space before or after it matches no row,
    so every row from index 3 on is eligible. *)
Theorem unstripped_protected_supplier_protects_nothing (astype_na : cell)
    (order wb : Workbook) (shop_codes nicknames : gset pystr)
    (protected_supplier west_prefix : pystr) (sm : Summary) :
  Py.strip protected_supplier ≠ protected_supplier →
  transform_order astype_na order shop_codes nicknames protected_supplier west_prefix
  = inr (wb, sm) →
  rows_eligible_by_supplier_rule sm = length (sheet order) - 3.
Proof.
  intros Hstrip Hres.
  destruct (transform_order_inr _ _ _ _ _ _ _ Hres) as (row0 & row1 & s & H0 & H1 & Hs).
  pose proof (transform_order_result astype_na order shop_codes nicknames
                protected_supplier west_prefix row0 row1 s H0 H1 Hs) as Hres'.
  simpl in Hres'. rewrite Hres' in Hres. injection Hres as <- <-. simpl.
  rewrite length_rows_to_edit_of. unfold data_start.
  rewrite <- (length_drop (sheet order) 3).
  generalize (drop 3 (sheet order)). intros l.
  induction l as [|row l IH]; [done|]. rewrite filter_cons.
  rewrite decide_True; [simpl; by rewrite IH|].
  intros Heq. apply Hstrip. rewrite <- Heq. apply strip_idem.
Qed.

Lemma unstripped_protected_supplier_protects_nothing_witness :
  rows_eligible_by_supplier_rule
    {| summary_sheet_name := py "TDSheet";
       columns_to_clear_count := 1;
       west_columns_dropped := 1;
       rows_eligible_by_supplier_rule := 2;
       cleared_cells_estimate := 2;
       summary_protected_supplier := default_protected_supplier ++ py " " |}
  = length (sheet order_three_columns) - 3.
Proof.
  apply (unstripped_protected_supplier_protects_nothing astype_na_text
           order_three_columns
           {| sheet_name := py "TDSheet";
              sheet := [ [Str supplier_label; Str (py "shop")];
                         [NaN; Str (py "#037# and also #099#")];
                         [NaN; Str (py "qty")];
                         [Str (py "other"); Str []];
                         [Str default_protected_supplier; Str []] ] |}
           ∅ {[py "shop"]} (default_protected_supplier ++ py " ") default_west_prefix).
  - vm_compute. discriminate.
  - vm_compute. reflexivity.
Defined.

(** ** The two patterns *)

Lemma span_d_spec (s ds r : pystr) :
  Re.span_d s = (ds, r) → s = ds ++ r ∧ Forall (λ c, c = Re.letter_d) ds.
Proof.
  revert ds r. induction s as [|c s IH]; intros ds r; simpl.
  - by intros [= <- <-].
  - destruct (c =? Re.letter_d)%N eqn:Hc.
    + destruct (Re.span_d s) as [ds' r'] eqn:Hspan. intros [= <- <-].
      destruct (IH ds' r' eq_refl) as [-> Hall]. split; [done|].
      constructor; [by apply N.eqb_eq|done].
    + by intros [= <- <-].
Qed.

Lemma match_code_spec (s g : pystr) :
  Re.match_code s = Some g →
  ∃ ds post, s = Re.hash :: Re.backslash :: ds ++ Re.hash :: post
             ∧ ds ≠ [] ∧ Forall (λ c, c = Re.letter_d) ds ∧ g = Re.backslash :: ds.
Proof.
  unfold Re.match_code. destruct s as [|h [|b s]]; [done..|].
  destruct ((h =? Re.hash)%N && (b =? Re.backslash)%N) eqn:Hhb; [|done].
  apply andb_true_iff in Hhb as [Hh%N.eqb_eq Hb%N.eqb_eq]. subst h b.
  destruct (Re.span_d s) as [[|d ds] [|h' r]] eqn:Hspan; try done.
  destruct (h' =? Re.hash)%N eqn:Hh'; [|done]. apply N.eqb_eq in Hh'. subst h'.
  intros [= <-]. destruct (span_d_spec _ _ _ Hspan) as [-> Hall].
  by exists (d :: ds), r.
Qed.

(** The code a column gets from its address is never a number: it is a backslash
    and one or more letters d, standing between two hashes in the address text. *)
Theorem recorded_code_is_backslash_and_d (hdr_address : list cell) (j : nat) (code : pystr) :
  shop_cols_map_of hdr_address !! j = Some code →
  ∃ v pre ds post,
    hdr_address !! j = Some v
    ∧ str v = pre ++ Re.hash :: Re.backslash :: ds ++ Re.hash :: post
    ∧ ds ≠ []
    ∧ Forall (λ c, c = Re.letter_d) ds
    ∧ code = Re.backslash :: ds.
Proof.
  rewrite shop_cols_map_of_lookup. destruct (hdr_address !! j) as [v|]; [|done].
  simpl. intros Hs. exists v. revert Hs. generalize (str v). intros s Hs.
  induction s as [|c s IH]; [done|]. cbn [Re.search_code] in Hs.
  destruct (Re.match_code (c :: s)) as [g|] eqn:Hm.
  - injection Hs as ->.
    destruct (match_code_spec _ _ Hm) as (ds & post & Heq & Hne & Hall & Hcode).
    exists [], ds, post. by rewrite Heq.
  - destruct (IH Hs) as (pre & ds & post & _ & Heq & Hne & Hall & Hcode).
    exists (c :: pre), ds, post. by rewrite Heq at 1.
Qed.

Lemma recorded_code_is_backslash_and_d_witness :
  ∃ v pre ds post,
    [Str []; Str (py "a #\dd# b")] !! 1 = Some v
    ∧ str v = pre ++ Re.hash :: Re.backslash :: ds ++ Re.hash :: post
    ∧ ds ≠ []
    ∧ Forall (λ c, c = Re.letter_d) ds
    ∧ py "\dd" = Re.backslash :: ds.
Proof.
  apply (recorded_code_is_backslash_and_d [Str []; Str (py "a #\dd# b")] 1 (py "\dd")).
  vm_compute. reflexivity.
Defined.

Lemma search_code_no_backslash (s : pystr) :
  Re.backslash ∉ s → Re.search_code s = None.
Proof.
  intros Hs. destruct (Re.search_code s) as [g|] eqn:Hg; [|done]. exfalso.
  induction s as [|c s IH]; [done|]. cbn [Re.search_code] in Hg.
  destruct (Re.match_code (c :: s)) as [g'|] eqn:Hm.
  - destruct (match_code_spec _ _ Hm) as (ds & post & Heq & _).
    apply Hs. rewrite Heq. right. left.
  - apply IH; [|done]. intros Hin. apply Hs. by right.
Qed.

(** Where no address of row 1 holds a backslash, the shop codes of the removal
    list select no column: the clear-set is the one the nicknames give. *)
Theorem shop_codes_select_nothing_without_backslash (hdr_nickname hdr_address : list cell)
    (shop_codes nicknames : gset pystr) :
  (∀ v, v ∈ hdr_address → Re.backslash ∉ str v) →
  shop_cols_map_of hdr_address = ∅
  ∧ columns_to_clear_of hdr_nickname hdr_address shop_codes nicknames
    = columns_to_clear_of hdr_nickname hdr_address ∅ nicknames.
Proof.
  intros Hno.
  assert (∀ j, shop_cols_map_of hdr_address !! j = None) as Hmap.
  { intros j. rewrite shop_cols_map_of_lookup.
    destruct (hdr_address !! j) as [v|] eqn:Hv; [|done]. simpl.
    apply search_code_no_backslash, Hno. by eapply list_elem_of_lookup_2. }
  split.
  - apply map_eq. intros j. by rewrite Hmap, lookup_empty.
  - apply set_eq. intros j. rewrite !elem_of_columns_to_clear_of. split.
    + intros [(code & Hc & _)|Hn]; [by rewrite Hmap in Hc|by right].
    + intros [(code & Hc & _)|Hn]; [by rewrite Hmap in Hc|by right].
Qed.

Lemma shop_codes_select_nothing_without_backslash_witness :
  shop_cols_map_of [Str []; Str (py "#037# address")] = ∅
  ∧ columns_to_clear_of [Str supplier_label; Str (py "shop")]
                        [Str []; Str (py "#037# address")] {[py "037"]} ∅
    = columns_to_clear_of [Str supplier_label; Str (py "shop")]
                          [Str []; Str (py "#037# address")] ∅ ∅.
Proof.
  apply (shop_codes_select_nothing_without_backslash
           [Str supplier_label; Str (py "shop")] [Str []; Str (py "#037# address")]
           {[py "037"]} ∅).
  intros v Hv Hin.
  apply elem_of_cons in Hv as [->|Hv]; [by apply elem_of_nil in Hin|].
  apply elem_of_cons in Hv as [->|Hv]; [|by apply elem_of_nil in Hv].
  vm_compute in Hin. repeat (apply elem_of_cons in Hin as [Hin|Hin]; [discriminate Hin|]).
  by apply elem_of_nil in Hin.
Defined.

Lemma match_dot0_spec (s rest : pystr) :
  Re.match_dot0 s = Some rest →
  ∃ c, s = Re.backslash :: c :: Re.zero :: rest
       ∧ c ≠ Re.newline ∧ (rest = [] ∨ rest = [Re.newline]).
Proof.
  unfold Re.match_dot0. destruct s as [|b [|c [|z r]]]; [done..|].
  destruct ((b =? Re.backslash)%N && negb (c =? Re.newline)%N && (z =? Re.zero)%N
            && Re.at_end r) eqn:H; [|done].
  apply andb_true_iff in H as [H Hend]. apply andb_true_iff in H as [H Hz].
  apply andb_true_iff in H as [Hb Hc].
  apply N.eqb_eq in Hb, Hz. apply negb_true_iff, N.eqb_neq in Hc. subst b z.
  intros [= <-]. exists c. split; [done|]. split; [done|].
  destruct r as [|n [|? ?]]; [by left| |done]. simpl in Hend.
  apply N.eqb_eq in Hend. subst n. by right.
Qed.

Lemma replace_dot0_cases (s : pystr) :
  Re.replace_dot0 s = s
  ∨ ∃ pre c tail,
      s = pre ++ Re.backslash :: c :: Re.zero :: tail
      ∧ c ≠ Re.newline
      ∧ (tail = [] ∨ tail = [Re.newline])
      ∧ Re.replace_dot0 s = pre ++ tail.
Proof.
  induction s as [|a s IH]; [by left|]. cbn [Re.replace_dot0].
  destruct (Re.match_dot0 (a :: s)) as [rest|] eqn:Hm.
  - right. destruct (match_dot0_spec _ _ Hm) as (c & Heq & Hc & Hrest).
    exists [], c, rest. by rewrite Heq.
  - destruct IH as [->|(pre & c & tail & Heq & Hc & Htail & Hrep)]; [by left|].
    right. exists (a :: pre), c, tail. rewrite Hrep. by rewrite Heq at 1.
Qed.

Lemma replace_dot0_no_backslash (s : pystr) :
  Re.backslash ∉ s → Re.replace_dot0 s = s.
Proof.
  intros Hs. destruct (replace_dot0_cases s) as [|(pre & c & tail & -> & _)]; [done|].
  exfalso. apply Hs. apply elem_of_app. right. left.
Qed.

(** The replacement of the loader leaves a text as it is, or removes from its end
    (or from before a newline that ends it) three characters: a backslash, one
    character that is no newline, and the character 0.  A text ending in ".0"
    without a backslash before it is left as it is. *)
Theorem replace_removes_only_backslash_suffix (s : pystr) :
  (Re.replace_dot0 s = s
   ∨ ∃ pre c tail,
       s = pre ++ Re.backslash :: c :: Re.zero :: tail
       ∧ c ≠ Re.newline
       ∧ (tail = [] ∨ tail = [Re.newline])
       ∧ Re.replace_dot0 s = pre ++ tail)
  ∧ (Re.backslash ∈ s ∨ Re.replace_dot0 (s ++ py ".0") = s ++ py ".0").
Proof.
  split; [apply replace_dot0_cases|].
  destruct (decide (Re.backslash ∈ s)) as [Hin|Hin]; [by left|right].
  apply replace_dot0_no_backslash. intros [?|Hdot]%elem_of_app; [done|].
  vm_compute in Hdot. repeat (apply elem_of_cons in Hdot as [Hdot|Hdot]; [discriminate Hdot|]).
  by apply elem_of_nil in Hdot.
Qed.

(** ** The sets the loader returns *)

Lemma elem_of_non_empty_set (col : list pystr) (x : pystr) :
  x ∈ Loader.non_empty_set col ↔ x ≠ [] ∧ x ∈ col.
Proof. unfold Loader.non_empty_set. by rewrite elem_of_list_to_set, list_elem_of_filter. Qed.

Lemma load_template_from_bytes_inr (template : gmap pystr Loader.column)
    (shop_codes nicknames : gset pystr) :
  Loader.load_template_from_bytes template = inr (shop_codes, nicknames) →
  ∃ codes,
    template !! Loader.shop_code = Some codes
    ∧ (∀ x, x ∈ shop_codes
            ↔ x ≠ [] ∧ ∃ c, c ∈ codes ∧ x = Py.strip (Re.replace_dot0 (default [] c)))
    ∧ (∀ x, x ∈ nicknames
            ↔ x ≠ [] ∧ ∃ nick c, template !! Loader.shop_nickname_optional = Some nick
                                 ∧ c ∈ nick ∧ x = Py.strip (default [] c)).
Proof.
  unfold Loader.load_template_from_bytes. rewrite normalise_eq, !lookup_fmap.
  destruct (template !! Loader.shop_code) as [codes|]; simpl; [|done].
  intros [= <- <-]. exists codes. split; [done|]. split.
  - intros x. rewrite elem_of_non_empty_set. unfold Loader.fillna.
    rewrite <- list_fmap_compose, list_elem_of_fmap. split.
    + intros [Hne (c & -> & Hc)]. split; [done|]. by exists c.
    + intros [Hne (c & Hc & ->)]. split; [done|]. by exists c.
  - intros x. rewrite elem_of_non_empty_set.
    destruct (template !! Loader.shop_nickname_optional) as [nick|]; simpl.
    + unfold Loader.fillna. rewrite <- list_fmap_compose, list_elem_of_fmap. split.
      * intros [Hne (c & -> & Hc)]. split; [done|]. by exists nick, c.
      * intros [Hne (nick' & c & [= <-] & Hc & ->)]. split; [done|]. by exists c.
    + split.
      * intros [Hne Hin]. exfalso. apply Hne.
        apply list_elem_of_fmap in Hin as (y & -> & Hy).
        by apply elem_of_replicate in Hy as [-> _].
      * by intros [_ (nick & c & ? & _)].
Qed.

(** The sets a template gives: a shop code is the non-empty result of replacing
    and stripping the text of a cell of the [shop_code] column (a missing cell
    read as empty), a nickname the non-empty stripped text of a cell of the
    nickname column. *)
Theorem loader_set_members (template : gmap pystr Loader.column)
    (shop_codes nicknames : gset pystr) :
  Loader.load_template_from_bytes template = inr (shop_codes, nicknames) →
  ∃ codes,
    template !! Loader.shop_code = Some codes
    ∧ (∀ x, x ∈ shop_codes
            ↔ x ≠ [] ∧ ∃ c, c ∈ codes ∧ x = Py.strip (Re.replace_dot0 (default [] c)))
    ∧ (∀ x, x ∈ nicknames
            ↔ x ≠ [] ∧ ∃ nick c, template !! Loader.shop_nickname_optional = Some nick
                                 ∧ c ∈ nick ∧ x = Py.strip (default [] c)).
Proof. apply load_template_from_bytes_inr. Qed.

Lemma loader_set_members_witness :
  ∃ codes,
    ({[ Loader.shop_code := [Some (py "465.0"); None; Some (py " 3 ")] ]}
       : gmap pystr Loader.column) !! Loader.shop_code = Some codes.
Proof.
  destruct (loader_set_members
              {[ Loader.shop_code := [Some (py "465.0"); None; Some (py " 3 ")] ]}
              {[ py "465.0"; py "3" ]} ∅) as (codes & Hcodes & _).
  - vm_compute. reflexivity.
  - by exists codes.
Defined.

(** Every text in either set is non-empty and has no whitespace at its ends. *)
Theorem loader_sets_hold_stripped_texts (template : gmap pystr Loader.column)
    (shop_codes nicknames : gset pystr) (x : pystr) :
  Loader.load_template_from_bytes template = inr (shop_codes, nicknames) →
  x ∈ shop_codes ∨ x ∈ nicknames →
  x ≠ [] ∧ Py.strip x = x.
Proof.
  intros Hload Hx.
  destruct (load_template_from_bytes_inr _ _ _ Hload) as (codes & _ & Hsc & Hnn).
  destruct Hx as [Hx|Hx].
  - destruct (proj1 (Hsc x) Hx) as [Hne (c & _ & Heq)].
    split; [done|]. rewrite Heq. apply strip_idem.
  - destruct (proj1 (Hnn x) Hx) as [Hne (nick & c & _ & _ & Heq)].
    split; [done|]. rewrite Heq. apply strip_idem.
Qed.

Lemma loader_sets_hold_stripped_texts_witness :
  py "3" ≠ [] ∧ Py.strip (py "3") = py "3".
Proof.
  apply (loader_sets_hold_stripped_texts
           {[ Loader.shop_code := [Some (py "465.0"); None; Some (py " 3 ")] ]}
           {[ py "465.0"; py "3" ]} ∅ (py "3")).
  - vm_compute. reflexivity.
  - left. vm_compute. reflexivity.
Defined.

(** Columns other than the two the loader names, such as the notes, change
    nothing: with such a column added, replaced or removed the result is the same. *)
Theorem loader_ignores_other_columns (template : gmap pystr Loader.column)
    (name : pystr) (col : Loader.column) :
  name ≠ Loader.shop_code →
  name ≠ Loader.shop_nickname_optional →
  Loader.load_template_from_bytes (<[name := col]> template)
  = Loader.load_template_from_bytes template
  ∧ Loader.load_template_from_bytes (delete name template)
    = Loader.load_template_from_bytes template.
Proof.
  intros Hc Hn. unfold Loader.load_template_from_bytes.
  rewrite !normalise_eq, !lookup_fmap.
  rewrite !lookup_insert_ne by done. by rewrite !lookup_delete_ne by done.
Qed.

Lemma loader_ignores_other_columns_witness :
  Loader.load_template_from_bytes
    (<[py "notes_optional" := [Some (py "seasonal")]]>
       {[ Loader.shop_code := [Some (py "003")] ]})
  = Loader.load_template_from_bytes {[ Loader.shop_code := [Some (py "003")] ]}
  ∧ Loader.load_template_from_bytes
      (delete (py "notes_optional") {[ Loader.shop_code := [Some (py "003")] ]})
    = Loader.load_template_from_bytes {[ Loader.shop_code := [Some (py "003")] ]}.
Proof.
  apply (loader_ignores_other_columns {[ Loader.shop_code := [Some (py "003")] ]}
           (py "notes_optional") [Some (py "seasonal")]).
  - vm_compute. discriminate.
  - vm_compute. discriminate.
Defined.

(** Where no identifier of the template holds a backslash, the shop codes are the
    identifiers stripped and nothing more: a trailing ".0" stays. *)
Theorem loader_keeps_identifiers_without_backslash (template : gmap pystr Loader.column)
    (codes : Loader.column) (shop_codes nicknames : gset pystr) :
  template !! Loader.shop_code = Some codes →
  (∀ c, c ∈ codes → Re.backslash ∉ default [] c) →
  Loader.load_template_from_bytes template = inr (shop_codes, nicknames) →
  ∀ x, x ∈ shop_codes ↔ x ≠ [] ∧ ∃ c, c ∈ codes ∧ x = Py.strip (default [] c).
Proof.
  intros Hcodes Hno Hload x.
  destruct (load_template_from_bytes_inr _ _ _ Hload) as (codes' & Hcodes' & Hsc & _).
  assert (codes' = codes) as -> by congruence. rewrite Hsc. split.
  - intros [Hne (c & Hc & ->)]. split; [done|]. exists c. split; [done|].
    by rewrite replace_dot0_no_backslash by by apply Hno.
  - intros [Hne (c & Hc & ->)]. split; [done|]. exists c. split; [done|].
    by rewrite replace_dot0_no_backslash by by apply Hno.
Qed.

Lemma loader_keeps_identifiers_without_backslash_witness :
  py "465.0" ∈ ({[ py "465.0" ]} : gset pystr)
  ↔ py "465.0" ≠ [] ∧ ∃ c, c ∈ [Some (py " 465.0")] ∧ py "465.0" = Py.strip (default [] c).
Proof.
  apply (loader_keeps_identifiers_without_backslash
           {[ Loader.shop_code := [Some (py " 465.0")] ]} [Some (py " 465.0")]
           {[ py "465.0" ]} ∅).
  - vm_compute. reflexivity.
  - intros c Hc Hin. apply elem_of_cons in Hc as [->|Hc]; [|by apply elem_of_nil in Hc].
    vm_compute in Hin.
    repeat (apply elem_of_cons in Hin as [Hin|Hin]; [discriminate Hin|]).
    by apply elem_of_nil in Hin.
  - vm_compute. reflexivity.
Defined.

(** ** The column search *)

(** [find_col] returns the least index whose stripped text is the name, an index
    of the row, and returns nothing exactly when no cell of the row has that text. *)
Theorem find_col_first_match (hdr_series : list cell) (name_exact : pystr) :
  match find_col hdr_series name_exact with
  | Some i =>
      i < length hdr_series
      ∧ (∃ v, hdr_series !! i = Some v ∧ Py.strip (str v) = name_exact)
      ∧ ∀ j v, j < i → hdr_series !! j = Some v → Py.strip (str v) ≠ name_exact
  | None => ∀ v, v ∈ hdr_series → Py.strip (str v) ≠ name_exact
  end.
Proof.
  destruct (find_col hdr_series name_exact) as [i|] eqn:Hfind.
  - apply find_col_Some in Hfind as [(v & Hv & Hname) Hfirst].
    split; [by apply lookup_lt_Some in Hv|]. split; [by exists v|done].
  - pose proof (proj1 (find_col_None hdr_series name_exact) Hfind) as Hnone.
    intros v (j & Hj)%list_elem_of_lookup. by apply (Hnone j).
Qed.

(** ** The page *)

(** A download is offered only after the whole chain went through: the button
    was pressed, an order was uploaded, the chosen template loaded with a set
    that is not empty, and the transformer returned; what is offered is the
    transformer's workbook and summary for the two text inputs of the page. *)
Theorem download_only_after_success (astype_na : cell) (page : Page)
    (cleaned : Workbook) (summary : Summary) :
  main astype_na page = Download cleaned summary →
  run_btn page = true
  ∧ ∃ order shop_codes nicknames,
      order_file page = Some order
      ∧ (if use_config_template page
         then Loader.load_template_from_file (config_template page)
              = inr (shop_codes, nicknames)
         else ∃ upload, uploaded_template_file page = Some upload
                        ∧ Loader.load_template_from_bytes upload
                          = inr (shop_codes, nicknames))
      ∧ ¬ (shop_codes = ∅ ∧ nicknames = ∅)
      ∧ transform_order astype_na order shop_codes nicknames
          (protected_supplier_input page) (west_prefix_input page)
        = inr (cleaned, summary).
Proof.
  unfold main. destruct (run_btn page); [|done]. intros H. split; [done|].
  destruct (order_file page) as [order|]; [|done]. exists order.
  destruct (use_config_template page).
  - destruct (Loader.load_template_from_file (config_template page))
      as [e|[sc nn]]; [done|].
    exists sc, nn. split; [done|]. split; [done|].
    case_decide as Hempty; [done|]. split; [done|].
    destruct (transform_order _ _ _ _ _ _) as [e|[wb sm]]; [done|]. by injection H as -> ->.
  - destruct (uploaded_template_file page) as [upload|]; [|done].
    destruct (Loader.load_template_from_bytes upload) as [e|[sc nn]] eqn:Hload; [done|].
    exists sc, nn. split; [done|]. split; [by exists upload|].
    case_decide as Hempty; [done|]. split; [done|].
    destruct (transform_order _ _ _ _ _ _) as [e|[wb sm]]; [done|]. by injection H as -> ->.
Qed.

Lemma download_only_after_success_witness :
  run_btn sample_page = true
  ∧ ∃ order shop_codes nicknames,
      order_file sample_page = Some order
      ∧ (∃ upload, uploaded_template_file sample_page = Some upload
                   ∧ Loader.load_template_from_bytes upload = inr (shop_codes, nicknames))
      ∧ ¬ (shop_codes = ∅ ∧ nicknames = ∅)
      ∧ transform_order astype_na_text order shop_codes nicknames
          default_protected_supplier default_west_prefix
        = inr (order_three_columns_out, order_three_columns_summary).
Proof.
  apply (download_only_after_success astype_na_text sample_page
           order_three_columns_out order_three_columns_summary).
  vm_compute. reflexivity.
Defined.

(** With a template that gives two empty sets the page warns that there is
    nothing to clear and does not run the transformer: an order sheet without a
    supplier column, or with no rows at all, raises no error then. *)
Theorem empty_template_skips_transform (astype_na : cell) (page : Page) (order : Workbook) :
  run_btn page = true →
  order_file page = Some order →
  (if use_config_template page
   then Loader.load_template_from_file (config_template page) = inr (∅, ∅)
   else ∃ upload, uploaded_template_file page = Some upload
                  ∧ Loader.load_template_from_bytes upload = inr (∅, ∅)) →
  main astype_na page = NothingToClear.
Proof.
  intros Hrun Horder Htpl. unfold main. rewrite Hrun, Horder.
  destruct (use_config_template page).
  - rewrite Htpl. by rewrite decide_True.
  - destruct Htpl as (upload & -> & ->). by rewrite decide_True.
Qed.

Lemma empty_template_skips_transform_witness :
  main astype_na_text
    {| order_file := Some {| sheet_name := py "TDSheet"; sheet := [] |};
       config_template := None;
       use_config_template := false;
       uploaded_template_file := Some {[ Loader.shop_code := [None; Some (py "  ")] ]};
       protected_supplier_input := default_protected_supplier;
       west_prefix_input := default_west_prefix;
       run_btn := true |}
  = NothingToClear.
Proof.
  apply (empty_template_skips_transform astype_na_text _
           {| sheet_name := py "TDSheet"; sheet := [] |}).
  - reflexivity.
  - reflexivity.
  - simpl. eexists. split; [reflexivity|]. vm_compute. reflexivity.
Defined.

(** The page shows an error exactly when the chosen template failed to load, or
    when it loaded with a set that is not empty and the transformer failed; the
    error shown is the one raised. *)
Theorem error_shown_iff_loader_or_transformer_failed (astype_na : cell) (page : Page)
    (order : Workbook) (e : error) :
  run_btn page = true →
  order_file page = Some order →
  let template :=
    if use_config_template page
    then Some (Loader.load_template_from_file (config_template page))
    else Loader.load_template_from_bytes <$> uploaded_template_file page in
  main astype_na page = ErrorDuringTransformation e
  ↔ template = Some (inl e)
    ∨ ∃ shop_codes nicknames,
        template = Some (inr (shop_codes, nicknames))
        ∧ ¬ (shop_codes = ∅ ∧ nicknames = ∅)
        ∧ transform_order astype_na order shop_codes nicknames
            (protected_supplier_input page) (west_prefix_input page) = inl e.
Proof.
  intros Hrun Horder. simpl. unfold main. rewrite Hrun, Horder.
  assert (∀ t : option (error + gset pystr * gset pystr),
            match t with
            | None => PleaseUploadTemplate
            | Some (inl e') => ErrorDuringTransformation e'
            | Some (inr (sc, nn)) =>
                if decide (sc = ∅ ∧ nn = ∅) then NothingToClear
                else match transform_order astype_na order sc nn
                             (protected_supplier_input page) (west_prefix_input page) with
                     | inl e' => ErrorDuringTransformation e'
                     | inr (cleaned_bytes, summary) => Download cleaned_bytes summary
                     end
            end = ErrorDuringTransformation e
            ↔ t = Some (inl e)
              ∨ ∃ sc nn, t = Some (inr (sc, nn)) ∧ ¬ (sc = ∅ ∧ nn = ∅)
                         ∧ transform_order astype_na order sc nn
                             (protected_supplier_input page) (west_prefix_input page)
                           = inl e) as Hcases.
  { intros [[e'|[sc nn]]|].
    - split; [intros [= ->]; by left|]. intros [[= ->]|(? & ? & ? & _)]; done.
    - case_decide as Hempty.
      + split; [done|]. intros [?|(sc' & nn' & [= <- <-] & Hne & _)]; done.
      + destruct (transform_order _ _ _ _ _ _) as [e'|[wb sm]] eqn:Hrun'.
        * split.
          -- intros [= ->]. right. by exists sc, nn.
          -- intros [?|(sc' & nn' & [= <- <-] & _ & Ht)]; [done|]. congruence.
        * split; [done|]. intros [?|(sc' & nn' & [= <- <-] & _ & Ht)]; [done|]. congruence.
    - split; [done|]. intros [?|(? & ? & ? & _)]; done. }
  destruct (use_config_template page).
  - exact (Hcases (Some (Loader.load_template_from_file (config_template page)))).
  - destruct (uploaded_template_file page) as [upload|].
    + exact (Hcases (Some (Loader.load_template_from_bytes upload))).
    + exact (Hcases None).
Qed.

Lemma error_shown_iff_loader_or_transformer_failed_witness :
  main astype_na_text
    {| order_file := Some order_three_columns;
       config_template := None;
       use_config_template := true;
       uploaded_template_file := None;
       protected_supplier_input := default_protected_supplier;
       west_prefix_input := default_west_prefix;
       run_btn := true |}
  = ErrorDuringTransformation FileNotFoundError.
Proof.
  apply (error_shown_iff_loader_or_transformer_failed astype_na_text
           {| order_file := Some order_three_columns;
              config_template := None;
              use_config_template := true;
              uploaded_template_file := None;
              protected_supplier_input := default_protected_supplier;
              west_prefix_input := default_west_prefix;
              run_btn := true |}
           order_three_columns FileNotFoundError).
  - reflexivity.
  - reflexivity.
  - left. reflexivity.
Defined.

